(** * FraudDetection: risk scoring, metrics aggregation and alerting

    A shallow embedding of the computational core of the dashboard:
    the metrics service ([calculateMetrics], [calculatePercentile],
    [calculateThroughput], [determineSystemHealth], [generateAlerts],
    [recordMetricsSnapshot]; imported by the application as
    [services/metrics], its text follows the Gemini client in
    [services/gemini.ts]), the document store
    ([services/documentStore.ts]: [getCustomerPolicy],
    [checkPolicyCompliance]) and the state updates of the application
    component [App] (the pipeline interval, [triggerFraudEvent],
    [handleAddToKnowledgeBase], [handleUpdateStatus]).

    Conventions of the embedding.
    - A JavaScript [number] is a rational ([Q]) with exact arithmetic: the
      values that occur (counts, millisecond clock readings, ratios of
      counts, amounts) are finite, and [NaN] and the infinities are not
      represented.  Comparisons of numbers are on the rational value.
    - A [string] is a [String.string].
    - Arrays are lists; [Array.prototype.slice], [sort], [filter], [find],
      [includes] and [push] are given below with the behaviour the language
      standard prescribes for them.
    - [Date.now()] and [new Date()] are inputs of the functions that read
      the clock. *)

From Stdlib Require Import String Ascii DecimalString ZArith QArith Qround Qabs List Bool Lia Lqa.
From Stdlib Require Import Permutation Sorted.
Import ListNotations.

Set Implicit Arguments.

Local Open Scope Z_scope.

(* ================================================================== *)
(** ** JavaScript helpers *)
(* ================================================================== *)

Module Js.

(** [a < b] and [a > b] on numbers. *)
Definition ltb (a b : Q) : bool := negb (Qle_bool b a).
Definition gtb (a b : Q) : bool := ltb b a.

(** [a === b] on strings. *)
Definition streq (a b : string) : bool := String.eqb a b.

(** [Math.round]: the nearest integer, a tie going up. *)
Definition round (x : Q) : Q := inject_Z (Qfloor (x + (1 # 2))).

(** [Math.ceil]. *)
Definition ceil (x : Q) : Z := Qceiling x.

(** [Math.max(a, b)] and [Math.min(a, b)]. *)
Definition max2 (a b : Q) : Q := if ltb a b then b else a.
Definition min2 (a b : Q) : Q := if ltb b a then b else a.

(** [arr.length], as a number. *)
Definition len {A} (arr : list A) : Q := inject_Z (Z.of_nat (length arr)).

(** [Number(x.toFixed(2))]: [x] to two decimals, a tie going up. *)
Definition toFixed2 (x : Q) : Q :=
  inject_Z (Qfloor (x * 100 + (1 # 2))) / 100.

(** The decimal rendering of an integer inside a template string. *)
Definition string_of_Z (n : Z) : string :=
  DecimalString.NilZero.string_of_int (Z.to_int n).

(** The relative index of [slice]: a negative index counts from the end,
    and the result is clamped to [0 .. len]. *)
Definition relIndex (k len : Z) : Z :=
  if k <? 0 then Z.max (len + k) 0 else Z.min k len.

(** [arr.slice(start, stop)]; [stop] absent means the length. *)
Definition slice {A} (start : Z) (stop : option Z) (arr : list A) : list A :=
  let len := Z.of_nat (length arr) in
  let k := relIndex start len in
  let final := match stop with
               | Some e => relIndex e len
               | None => len
               end in
  firstn (Z.to_nat (Z.max (final - k) 0)) (skipn (Z.to_nat k) arr).

(** [arr.push(x)] (on the array the function owns). *)
Definition push {A} (arr : list A) (x : A) : list A := arr ++ [x].

(** [arr.includes(x)] on an array of strings. *)
Definition includes (arr : list string) (x : string) : bool :=
  existsb (streq x) arr.

(** [arr.sort(cmp)]: [leb a b] stands for [cmp(a, b) <= 0].  The standard
    requires a stable sort; insertion from the right is one. *)
Section Sort.
Context {A : Type} (leb : A -> A -> bool).

Fixpoint insert (x : A) (l : list A) : list A :=
  match l with
  | [] => [x]
  | y :: l' => if leb x y then x :: l else y :: insert x l'
  end.

Fixpoint sort (l : list A) : list A :=
  match l with
  | [] => []
  | x :: l' => insert x (sort l')
  end.
End Sort.

(** [s.toLowerCase()], on the ASCII letters. *)
Definition lowerAscii (c : ascii) : ascii :=
  let n := nat_of_ascii c in
  if (Nat.leb 65 n && Nat.leb n 90)%bool then ascii_of_nat (n + 32) else c.

Fixpoint toLowerCase (s : string) : string :=
  match s with
  | EmptyString => EmptyString
  | String c s' => String (lowerAscii c) (toLowerCase s')
  end.

(** [s.includes(sub)]. *)
Fixpoint strIncludes (sub s : string) : bool :=
  if String.prefix sub s then true
  else match s with
       | EmptyString => false
       | String _ s' => strIncludes sub s'
       end.

(** [Math.max(...xs)] on a non-empty array, given its first element. *)
Definition maxOf (x : Q) (xs : list Q) : Q := fold_left max2 xs x.

(** [arr.reduce((a, b) => a + b, 0)]. *)
Definition sum (xs : list Q) : Q := fold_left Qplus xs 0%Q.

(** [x || 0] on an optional number: an absent field and [0] both give 0. *)
Definition orZero (x : option Q) : Q :=
  match x with Some v => v | None => 0%Q end.

End Js.

(* ================================================================== *)
(** ** Data model *)
(* ================================================================== *)

Inductive RiskLevel := LOW | MEDIUM | CRITICAL.

Inductive TxStatus := PENDING | ANALYZING | BLOCKED | ALLOWED | FLAGGED.

Record Transaction := {
  tx_id : string;
  tx_timestamp : string;
  tx_amount : Q;
  tx_merchant : string;
  tx_merchantId : string;
  tx_narrative : string;
  tx_location : string;
  tx_ip : string;
  tx_zScore : Q;
  tx_velocityScore : Q;
  tx_signatureMatchScore : Q;
  tx_matchedCaseId : option string;
  tx_riskLevel : RiskLevel;
  tx_status : TxStatus
}.

Record FraudCase := {
  fc_id : string;
  fc_narrative : string;
  fc_merchant : string;
  fc_type : string;
  fc_vectorId : option string
}.

Record UserProfile := {
  up_history : list Q;
  up_mean : Q;
  up_stdDev : Q
}.

Record MetricsSnapshot := {
  ms_timestamp : Z;
  ms_responseTime : Q;
  ms_isFraud : bool
}.

Definition RiskLevel_eqb (a b : RiskLevel) : bool :=
  match a, b with
  | LOW, LOW | MEDIUM, MEDIUM | CRITICAL, CRITICAL => true
  | _, _ => false
  end.

Definition TxStatus_eqb (a b : TxStatus) : bool :=
  match a, b with
  | PENDING, PENDING | ANALYZING, ANALYZING | BLOCKED, BLOCKED
  | ALLOWED, ALLOWED | FLAGGED, FLAGGED => true
  | _, _ => false
  end.

(* ================================================================== *)
(** ** Metrics snapshot log ([recordMetricsSnapshot]) *)
(* ================================================================== *)

(** [now] is the reading of [Date.now()]. *)
Definition recordMetricsSnapshot (now : Z) (history : list MetricsSnapshot)
    (responseTime : Q) (isFraud : bool) (maxHistorySize : Z)
    : list MetricsSnapshot :=
  let snapshot := {| ms_timestamp := now;
                     ms_responseTime := responseTime;
                     ms_isFraud := isFraud |} in
  let updated := history ++ [snapshot] in
  if Z.of_nat (length updated) >? maxHistorySize
  then Js.slice (- maxHistorySize) None updated
  else updated.

(** The default value of the parameter [maxHistorySize]. *)
Definition defaultMaxHistorySize : Z := 1000.

(* ================================================================== *)
(** ** Alerts and dashboard metrics *)
(* ================================================================== *)

Inductive Severity := SEV_INFO | SEV_WARNING | SEV_CRITICAL.

Inductive SystemHealth := H_NORMAL | H_WARNING | H_CRITICAL.

(** The [description] of an alert is a template string; each constructor is
    one template, with the values interpolated into it. *)
Inductive AlertDescription :=
| DescFraudRate (detectionRate : Q)
| DescFalsePositive (falsePositiveRate : Q)
| DescPerformance (avgResponseTime : Q)
| DescHighValue (amount : Q) (merchant : string)
| DescMerchantRisk (merchant : string)
| DescVelocity (count : Q).

(** [al_timestamp] is the instant, in milliseconds, that the ISO string of
    the field denotes: [toISOString] writes a [Date] with its milliseconds
    and [new Date(s).getTime()] reads the same instant back. *)
Record Alert := {
  al_id : string;
  al_severity : Severity;
  al_title : string;
  al_description : AlertDescription;
  al_timestamp : Z;
  al_related_transaction_id : option string
}.

Definition Severity_eqb (a b : Severity) : bool :=
  match a, b with
  | SEV_INFO, SEV_INFO | SEV_WARNING, SEV_WARNING
  | SEV_CRITICAL, SEV_CRITICAL => true
  | _, _ => false
  end.

(** [None] in a latency field stands for [NaN]. *)
Record DashboardMetrics := {
  transactions_today : Q;
  fraud_detected : Q;
  detection_rate : Q;
  legitimate_approved : Q;
  pending_review : Q;
  avg_response_time_ms : Q;
  max_response_time_ms : Q;
  p95_latency_ms : option Q;
  p99_latency_ms : option Q;
  throughput_txn_per_sec : Q;
  model_accuracy : Q;
  model_precision : Q;
  model_recall : Q;
  false_positive_rate : Q;
  false_negative_rate : Q;
  active_alerts : list Alert;
  system_health : SystemHealth
}.

(** The fields of [Partial<DashboardMetrics>] that [generateAlerts] reads;
    [None] is an absent field. *)
Record PartialDashboardMetrics := {
  pm_detection_rate : option Q;
  pm_false_positive_rate : option Q;
  pm_avg_response_time_ms : option Q
}.

(** The default [{}] of the parameter [metrics]. *)
Definition noMetrics : PartialDashboardMetrics :=
  {| pm_detection_rate := None;
     pm_false_positive_rate := None;
     pm_avg_response_time_ms := None |}.

(** A [DashboardMetrics] passed where a [Partial<DashboardMetrics>] is
    expected. *)
Definition asPartial (m : DashboardMetrics) : PartialDashboardMetrics :=
  {| pm_detection_rate := Some (detection_rate m);
     pm_false_positive_rate := Some (false_positive_rate m);
     pm_avg_response_time_ms := Some (avg_response_time_ms m) |}.

(* ================================================================== *)
(** ** Metrics calculation *)
(* ================================================================== *)

Local Open Scope Q_scope.

(** [calculatePercentile]: [None] is the [NaN] that [Math.round] gives for
    an index beyond the array.  The product [sorted.length * percentile] is
    taken on rationals; for the two percentiles in use the doubles 0.95 and
    0.99 lie just below their decimal values, so that the product computed
    in floating point has the same ceiling for every length an array can
    have. *)
Definition calculatePercentile (values : list Q) (percentile : Q) : option Q :=
  if (length values =? 0)%nat then Some 0
  else
    let sorted := Js.sort (fun a b => Qle_bool (a - b) 0) values in
    let index := (Js.ceil (Js.len sorted * percentile) - 1)%Z in
    option_map Js.round (nth_error sorted (Z.to_nat (Z.max 0 index))).

Definition calculateThroughput (metricsHistory : list MetricsSnapshot) : Q :=
  if (length metricsHistory <? 2)%nat then 0
  else
    let sorted :=
      Js.sort (fun a b => (ms_timestamp a - ms_timestamp b <=? 0)%Z)
              metricsHistory in
    match sorted with
    | [] => 0
    | first :: _ =>
        let timespanSeconds :=
          inject_Z (ms_timestamp (last sorted first) - ms_timestamp first)
          / 1000 in
        if Qeq_bool timespanSeconds 0 then 0
        else Js.toFixed2 (Js.len metricsHistory / timespanSeconds)
    end.

Definition determineSystemHealth (detectionRate falsePositiveRate
    avgResponseTime : Q) (alerts : list Alert) : SystemHealth :=
  let criticalAlerts :=
    Js.len (filter (fun a => Severity_eqb (al_severity a) SEV_CRITICAL) alerts) in
  if Js.gtb criticalAlerts 5
     || Js.gtb falsePositiveRate (3 # 10)
     || Js.gtb avgResponseTime 5000
     || Js.gtb detectionRate (5 # 10)
  then H_CRITICAL
  else if Js.gtb (Js.len alerts) 10
          || Js.gtb falsePositiveRate (15 # 100)
          || Js.gtb avgResponseTime 2000
          || Js.gtb detectionRate (3 # 10)
  then H_WARNING
  else H_NORMAL.

Definition isFraudCase (t : Transaction) : bool :=
  RiskLevel_eqb (tx_riskLevel t) CRITICAL || TxStatus_eqb (tx_status t) BLOCKED.

Definition calculateMetrics (transactions : list Transaction)
    (metricsHistory : list MetricsSnapshot) (alerts : list Alert)
    : DashboardMetrics :=
  let fraudCases := filter isFraudCase transactions in
  let approvedCases :=
    filter (fun t => TxStatus_eqb (tx_status t) ALLOWED) transactions in
  let pendingCases :=
    filter (fun t => TxStatus_eqb (tx_status t) PENDING
                     || TxStatus_eqb (tx_status t) ANALYZING) transactions in
  let detectionRate :=
    if Js.gtb (Js.len transactions) 0
    then Js.len fraudCases / Js.len transactions else 0 in
  let responseTimes := map ms_responseTime metricsHistory in
  let avgResponseTime :=
    if Js.gtb (Js.len responseTimes) 0
    then Js.round (Js.sum responseTimes / Js.len responseTimes) else 0 in
  let maxResponseTime :=
    match responseTimes with
    | [] => 0
    | r :: rs => Js.maxOf r rs
    end in
  let p95Latency := calculatePercentile responseTimes (95 # 100) in
  let p99Latency := calculatePercentile responseTimes (99 # 100) in
  let throughput := calculateThroughput metricsHistory in
  let fraudDetected := Js.len fraudCases in
  let truePositives :=
    Js.len (filter (fun t => TxStatus_eqb (tx_status t) BLOCKED) fraudCases) in
  let falsePositives :=
    Js.len (filter (fun t => TxStatus_eqb (tx_status t) ALLOWED) fraudCases) in
  let falseNegatives :=
    Js.len (filter (fun t => RiskLevel_eqb (tx_riskLevel t) CRITICAL)
                   approvedCases) in
  let trueNegatives :=
    Js.len (filter (fun t => RiskLevel_eqb (tx_riskLevel t) LOW)
                   approvedCases) in
  let precision :=
    if Js.gtb (truePositives + falsePositives) 0
    then truePositives / (truePositives + falsePositives) else 0 in
  let recall :=
    if Js.gtb (truePositives + falseNegatives) 0
    then truePositives / (truePositives + falseNegatives) else 0 in
  let accuracy :=
    if Js.gtb (Js.len transactions) 0
    then (truePositives + trueNegatives) / Js.len transactions else 0 in
  let falsePositiveRate :=
    if Js.gtb (falsePositives + trueNegatives) 0
    then falsePositives / (falsePositives + trueNegatives) else 0 in
  let falseNegativeRate :=
    if Js.gtb (falseNegatives + truePositives) 0
    then falseNegatives / (falseNegatives + truePositives) else 0 in
  let systemHealth :=
    determineSystemHealth detectionRate falsePositiveRate avgResponseTime
                          alerts in
  {| transactions_today := Js.len transactions;
     fraud_detected := fraudDetected;
     detection_rate := detectionRate;
     legitimate_approved := Js.len approvedCases;
     pending_review := Js.len pendingCases;
     avg_response_time_ms := avgResponseTime;
     max_response_time_ms := maxResponseTime;
     p95_latency_ms := p95Latency;
     p99_latency_ms := p99Latency;
     throughput_txn_per_sec := throughput;
     model_accuracy := Js.max2 0 (Js.min2 1 accuracy);
     model_precision := Js.max2 0 (Js.min2 1 precision);
     model_recall := Js.max2 0 (Js.min2 1 recall);
     false_positive_rate := Js.max2 0 (Js.min2 1 falsePositiveRate);
     false_negative_rate := Js.max2 0 (Js.min2 1 falseNegativeRate);
     active_alerts := alerts;
     system_health := systemHealth |}.

Local Close Scope Q_scope.
(* ================================================================== *)
(** ** Alert generation ([generateAlerts]) *)
(* ================================================================== *)

(** The clock readings of one call: [now] is [new Date()], and each alert
    reads [Date.now()] once more for its id. *)
Record Clock := {
  now : Z;
  now_high_fraud : Z;
  now_false_pos : Z;
  now_performance : Z;
  now_high_value : Z;
  now_merchant_risk : Z;
  now_velocity : Z
}.

(** The table [severityOrder] of the sort comparator. *)
Definition severityOrder (s : Severity) : Z :=
  match s with
  | SEV_CRITICAL => 0
  | SEV_WARNING => 1
  | SEV_INFO => 2
  end.

(** The comparator passed to [alerts.sort]. *)
Definition compareAlerts (a b : Alert) : Z :=
  let severityDiff :=
    severityOrder (al_severity a) - severityOrder (al_severity b) in
  if negb (severityDiff =? 0) then severityDiff
  else al_timestamp b - al_timestamp a.

Definition isHighValueFraud (t : Transaction) : bool :=
  RiskLevel_eqb (tx_riskLevel t) CRITICAL && Js.gtb (tx_amount t) 10000.

Definition isHighRiskMerchant (t : Transaction) : bool :=
  Js.strIncludes "crypto" (Js.toLowerCase (tx_merchant t))
  || Js.strIncludes "wire" (Js.toLowerCase (tx_merchant t))
  || Js.strIncludes "transfer" (Js.toLowerCase (tx_merchant t)).

(** The alerts in the order they are pushed, before the final sort. *)
Definition pushedAlerts (clk : Clock) (transactions : list Transaction)
    (metrics : PartialDashboardMetrics) : list Alert :=
  let alerts : list Alert := [] in
  (* High fraud detection rate alert *)
  let detectionRate := Js.orZero (pm_detection_rate metrics) in
  let alerts :=
    if Js.gtb detectionRate (1 # 10) then
      Js.push alerts
        {| al_id := "ALERT_HIGH_FRAUD_" ++ Js.string_of_Z (now_high_fraud clk);
           al_severity := if Js.gtb detectionRate (2 # 10)
                          then SEV_CRITICAL else SEV_WARNING;
           al_title := "Elevated Fraud Detection Rate";
           al_description := DescFraudRate detectionRate;
           al_timestamp := now clk;
           al_related_transaction_id := None |}
    else alerts in
  (* High false positive rate alert *)
  let falsePositiveRate := Js.orZero (pm_false_positive_rate metrics) in
  let alerts :=
    if Js.gtb falsePositiveRate (2 # 10) then
      Js.push alerts
        {| al_id := "ALERT_FALSE_POS_" ++ Js.string_of_Z (now_false_pos clk);
           al_severity := SEV_WARNING;
           al_title := "High False Positive Rate";
           al_description := DescFalsePositive falsePositiveRate;
           al_timestamp := now clk - 300000;
           al_related_transaction_id := None |}
    else alerts in
  (* Performance degradation alert *)
  let avgResponseTime := Js.orZero (pm_avg_response_time_ms metrics) in
  let alerts :=
    if Js.gtb avgResponseTime 3000 then
      Js.push alerts
        {| al_id := "ALERT_PERFORMANCE_" ++ Js.string_of_Z (now_performance clk);
           al_severity := if Js.gtb avgResponseTime 5000
                          then SEV_CRITICAL else SEV_WARNING;
           al_title := "System Performance Degradation";
           al_description := DescPerformance avgResponseTime;
           al_timestamp := now clk - 600000;
           al_related_transaction_id := None |}
    else alerts in
  (* Recent high-value fraud alert *)
  let alerts :=
    match find isHighValueFraud transactions with
    | Some highValueFraud =>
        Js.push alerts
          {| al_id := "ALERT_HIGH_VALUE_" ++ Js.string_of_Z (now_high_value clk);
             al_severity := SEV_CRITICAL;
             al_title := "High-Value Fraud Detected";
             al_description := DescHighValue (tx_amount highValueFraud)
                                             (tx_merchant highValueFraud);
             al_timestamp := now clk;
             al_related_transaction_id := Some (tx_id highValueFraud) |}
    | None => alerts
    end in
  (* Merchant risk alert *)
  let alerts :=
    match find isHighRiskMerchant transactions with
    | Some highRiskMerchant =>
        Js.push alerts
          {| al_id := "ALERT_MERCHANT_RISK_"
                      ++ Js.string_of_Z (now_merchant_risk clk);
             al_severity := SEV_WARNING;
             al_title := "High-Risk Merchant Activity";
             al_description := DescMerchantRisk (tx_merchant highRiskMerchant);
             al_timestamp := now clk - 1200000;
             al_related_transaction_id := Some (tx_id highRiskMerchant) |}
    | None => alerts
    end in
  (* Velocity alert *)
  let recentTransactions := Js.slice 0 (Some 10) transactions in
  let alerts :=
    if (5 <=? length recentTransactions)%nat then
      Js.push alerts
        {| al_id := "ALERT_VELOCITY_" ++ Js.string_of_Z (now_velocity clk);
           al_severity := SEV_WARNING;
           al_title := "Abnormal Transaction Velocity";
           al_description := DescVelocity (Js.len recentTransactions);
           al_timestamp := now clk - 180000;
           al_related_transaction_id := None |}
    else alerts in
  alerts.

Definition generateAlerts (clk : Clock) (transactions : list Transaction)
    (metrics : PartialDashboardMetrics) : list Alert :=
  Js.sort (fun a b => compareAlerts a b <=? 0)
          (pushedAlerts clk transactions metrics).

(** The condition an alert reports and the transaction it refers to. *)
Definition alertCondition (a : Alert) : string * option string :=
  (al_title a, al_related_transaction_id a).
(* ================================================================== *)
(** ** Customer policies ([services/documentStore.ts]) *)
(* ================================================================== *)

Record CustomerPolicy := {
  cp_id : string;
  cp_user_id : string;
  cp_daily_limit : Q;
  cp_monthly_limit : Q;
  cp_requires_approval_above : Q;
  cp_allowed_countries : list string;
  cp_blocked_countries : list string;
  cp_max_transactions_per_day : Q;
  cp_risk_tier : string;
  cp_compliance_status : string
}.

Definition customerPolicies : list CustomerPolicy :=
  [ {| cp_id := "CUST_POL_001";
       cp_user_id := "USER_VIP_001";
       cp_daily_limit := 100000;
       cp_monthly_limit := 1000000;
       cp_requires_approval_above := 50000;
       cp_allowed_countries := ["US"; "UK"; "CA"; "AU"; "SG"]%string;
       cp_blocked_countries := ["KP"; "IR"; "SY"]%string;
       cp_max_transactions_per_day := 100;
       cp_risk_tier := "LOW";
       cp_compliance_status := "VERIFIED_KYC" |};
    {| cp_id := "CUST_POL_002";
       cp_user_id := "USER_STANDARD_001";
       cp_daily_limit := 10000;
       cp_monthly_limit := 50000;
       cp_requires_approval_above := 5000;
       cp_allowed_countries := ["US"; "CA"; "UK"]%string;
       cp_blocked_countries := ["KP"; "IR"; "SY"; "CU"]%string;
       cp_max_transactions_per_day := 20;
       cp_risk_tier := "MEDIUM";
       cp_compliance_status := "VERIFIED_KYC" |};
    {| cp_id := "CUST_POL_003";
       cp_user_id := "USER_NEW_001";
       cp_daily_limit := 2000;
       cp_monthly_limit := 10000;
       cp_requires_approval_above := 1000;
       cp_allowed_countries := ["US"]%string;
       cp_blocked_countries := ["KP"; "IR"; "SY"; "CU"; "VE"]%string;
       cp_max_transactions_per_day := 5;
       cp_risk_tier := "HIGH";
       cp_compliance_status := "PENDING_KYC" |};
    {| cp_id := "CUST_POL_004";
       cp_user_id := "USER_SUSPENDED_001";
       cp_daily_limit := 0;
       cp_monthly_limit := 0;
       cp_requires_approval_above := 0;
       cp_allowed_countries := [];
       cp_blocked_countries := ["*"]%string;
       cp_max_transactions_per_day := 0;
       cp_risk_tier := "HIGH";
       cp_compliance_status := "FAILED_KYC" |} ].

(** The messages of [checkPolicyCompliance]; each constructor is one
    template string with the value interpolated into it. *)
Inductive Violation :=
| PolicyNotFound
| ExceedsDailyLimit (daily_limit : Q)
| BlockedCountry (country : string)
| CountryNotAllowed (country : string)
| FailedKYC.

Record ComplianceResult := {
  compliant : bool;
  violations : list Violation
}.

(** [getCustomerPolicy] and [checkPolicyCompliance] read the module's table
    [customerPolicies]; the table is the first argument here. *)
Definition getCustomerPolicyIn (policies : list CustomerPolicy)
    (userId : string) : option CustomerPolicy :=
  find (fun p => Js.streq (cp_user_id p) userId) policies.

Definition checkPolicyComplianceIn (policies : list CustomerPolicy)
    (userId : string) (amount : Q) (country : string) : ComplianceResult :=
  match getCustomerPolicyIn policies userId with
  | None => {| compliant := false; violations := [PolicyNotFound] |}
  | Some policy =>
      let violations : list Violation := [] in
      (* Check daily limit *)
      let violations :=
        if Js.gtb amount (cp_daily_limit policy)
        then Js.push violations (ExceedsDailyLimit (cp_daily_limit policy))
        else violations in
      (* Check country restrictions *)
      let violations :=
        if Js.includes (cp_blocked_countries policy) country
        then Js.push violations (BlockedCountry country)
        else violations in
      let violations :=
        if (0 <? length (cp_allowed_countries policy))%nat
           && negb (Js.includes (cp_allowed_countries policy) country)
        then Js.push violations (CountryNotAllowed country)
        else violations in
      (* Check KYC status *)
      let violations :=
        if Js.streq (cp_compliance_status policy) "FAILED_KYC"
        then Js.push violations FailedKYC
        else violations in
      {| compliant := (length violations =? 0)%nat;
         violations := violations |}
  end.

Definition getCustomerPolicy : string -> option CustomerPolicy :=
  getCustomerPolicyIn customerPolicies.

Definition checkPolicyCompliance : string -> Q -> string -> ComplianceResult :=
  checkPolicyComplianceIn customerPolicies.

(* ================================================================== *)
(** ** The application state and its updates ([App]) *)
(* ================================================================== *)

(** The state the engine's callbacks update.  The profile's derived
    statistics ([calculateStats], of [services/simulation.ts]) are not part
    of these sources; [historyRef], from which they are recomputed, is. *)
Record AppState := {
  transactions : list Transaction;
  knowledgeBase : list FraudCase;
  selectedTxId : option string;
  isPaused : bool;
  metricsHistoryRef : list MetricsSnapshot;
  historyRef : list Q
}.

(** The seed history of [historyRef]. *)
Definition seedHistory : list Q := [45; 60; 55; 12; 40; 50; 48]%Q.

Definition initialState (INITIAL_KNOWLEDGE_BASE : list FraudCase) : AppState :=
  {| transactions := [];
     knowledgeBase := INITIAL_KNOWLEDGE_BASE;
     selectedTxId := None;
     isPaused := false;
     metricsHistoryRef := [];
     historyRef := seedHistory |}.

(** One firing of the pipeline interval; [newTx] is what
    [generateTransaction] returned, [responseTime] the time it took and
    [clock] the reading of [Date.now()].  The interval is installed only
    while the stream is not paused. *)
Definition pipelineTick (newTx : Transaction) (responseTime : Q) (clock : Z)
    (st : AppState) : AppState :=
  if isPaused st then st
  else
    {| transactions := Js.slice 0 (Some 50) (newTx :: transactions st);
       knowledgeBase := knowledgeBase st;
       selectedTxId := selectedTxId st;
       isPaused := isPaused st;
       metricsHistoryRef :=
         recordMetricsSnapshot clock (metricsHistoryRef st) responseTime
           (RiskLevel_eqb (tx_riskLevel newTx) CRITICAL)
           defaultMaxHistorySize;
       historyRef :=
         if RiskLevel_eqb (tx_riskLevel newTx) LOW
         then Js.slice (-50) None (historyRef st ++ [tx_amount newTx])
         else historyRef st |}.

(** [triggerFraudEvent]; [newTx] is what [generateTransaction] returned for
    the forced type. *)
Definition triggerFraudEvent (newTx : Transaction) (st : AppState) : AppState :=
  {| transactions := newTx :: transactions st;
     knowledgeBase := knowledgeBase st;
     selectedTxId := Some (tx_id newTx);
     isPaused := true;
     metricsHistoryRef := metricsHistoryRef st;
     historyRef := historyRef st |}.

(** The case [handleAddToKnowledgeBase] builds from a transaction. *)
Definition newCase (tx : Transaction) : FraudCase :=
  {| fc_id := "CASE_" ++ tx_id tx;
     fc_narrative := tx_narrative tx;
     fc_merchant := tx_merchant tx;
     fc_type := "Confirmed Fraud (Analyst Feedback)";
     fc_vectorId := Some "pending_vectorization"%string |}.

(** The update of the knowledge base, [prev => [...prev, newCase]]. *)
Definition addCase (kb : list FraudCase) (tx : Transaction) (notes : string)
    : list FraudCase :=
  kb ++ [newCase tx].

Definition handleAddToKnowledgeBase (tx : Transaction) (notes : string)
    (st : AppState) : AppState :=
  {| transactions := transactions st;
     knowledgeBase := addCase (knowledgeBase st) tx notes;
     selectedTxId := selectedTxId st;
     isPaused := isPaused st;
     metricsHistoryRef := metricsHistoryRef st;
     historyRef := historyRef st |}.

Definition withStatus (t : Transaction) (status : TxStatus) : Transaction :=
  {| tx_id := tx_id t;
     tx_timestamp := tx_timestamp t;
     tx_amount := tx_amount t;
     tx_merchant := tx_merchant t;
     tx_merchantId := tx_merchantId t;
     tx_narrative := tx_narrative t;
     tx_location := tx_location t;
     tx_ip := tx_ip t;
     tx_zScore := tx_zScore t;
     tx_velocityScore := tx_velocityScore t;
     tx_signatureMatchScore := tx_signatureMatchScore t;
     tx_matchedCaseId := tx_matchedCaseId t;
     tx_riskLevel := tx_riskLevel t;
     tx_status := status |}.

Definition handleUpdateStatus (id : string) (status : TxStatus)
    (st : AppState) : AppState :=
  {| transactions :=
       map (fun t => if Js.streq (tx_id t) id then withStatus t status else t)
           (transactions st);
     knowledgeBase := knowledgeBase st;
     selectedTxId := selectedTxId st;
     isPaused := isPaused st;
     metricsHistoryRef := metricsHistoryRef st;
     historyRef := historyRef st |}.

Definition togglePause (st : AppState) : AppState :=
  {| transactions := transactions st;
     knowledgeBase := knowledgeBase st;
     selectedTxId := selectedTxId st;
     isPaused := negb (isPaused st);
     metricsHistoryRef := metricsHistoryRef st;
     historyRef := historyRef st |}.

(** What can happen to the state. *)
Inductive Event :=
| EvTick (newTx : Transaction) (responseTime : Q) (clock : Z)
| EvTriggerFraud (newTx : Transaction)
| EvAddToKnowledgeBase (tx : Transaction) (notes : string)
| EvUpdateStatus (id : string) (status : TxStatus)
| EvTogglePause.

Definition step (st : AppState) (ev : Event) : AppState :=
  match ev with
  | EvTick newTx responseTime clock => pipelineTick newTx responseTime clock st
  | EvTriggerFraud newTx => triggerFraudEvent newTx st
  | EvAddToKnowledgeBase tx notes => handleAddToKnowledgeBase tx notes st
  | EvUpdateStatus id status => handleUpdateStatus id status st
  | EvTogglePause => togglePause st
  end.

Definition run (st : AppState) (evs : list Event) : AppState :=
  fold_left step evs st.

(** The cap of the transaction list. *)
Definition transactionCap : nat := 50.
(* ================================================================== *)
(** ** The risk scorer ([generateTransaction]) *)
(* ================================================================== *)

Module Scorer.

Local Open Scope Q_scope.

Inductive ForcedType := BEHAVIORAL | SIGNATURE.

Inductive ScoreError := InvalidProfile.

(** Modelled from the spec: [services/simulation.ts], which defines
    [generateTransaction], is not among the sources.  The random source
    is the record of the draws one call makes: the fields that identify
    the transaction, the deviate of the normal amount, whether the
    background anomaly happens and its amount, the number of standard
    deviations of a forced behavioural anomaly, the index of the selected
    knowledge-base entry, the similarity drawn for a forced signature, the
    background signature score, whether a coincidental match happens and
    its mid-range score, and the velocity score. *)
Record RandomSource := {
  rnd_id : string;
  rnd_timestamp : string;
  rnd_merchant : string;
  rnd_merchantId : string;
  rnd_narrative : string;
  rnd_location : string;
  rnd_ip : string;
  rnd_deviate : Q;
  rnd_anomaly : bool;
  rnd_anomalyAmount : Q;
  rnd_sigmas : Q;
  rnd_caseIndex : nat;
  rnd_forcedSimilarity : Q;
  rnd_background : Q;
  rnd_coincidence : bool;
  rnd_midRange : Q;
  rnd_velocity : Q
}.

(** Modelled from the spec: the decision table of section 4.1, step 5,
    evaluated in order. *)
Definition riskLevelOf (zScore signatureMatchScore : Q) : RiskLevel :=
  if Js.gtb (Qabs zScore) 3 || Qle_bool (85 # 100) signatureMatchScore
  then CRITICAL
  else if Js.gtb (Qabs zScore) (15 # 10) || Qle_bool (5 # 10) signatureMatchScore
  then MEDIUM
  else LOW.

Section Score.

(** The two constants the spec leaves open: the [ε] of the z-score and
    the floor of the spread. *)
Variable epsilon : Q.
Variable spreadFloor : Q.

(** Modelled from the spec: section 4.1, steps 1 to 6.  A forced
    signature on an empty knowledge base has no entry to copy from; the
    transaction then keeps the drawn narrative and merchant and names no
    case. *)
Definition score (profile : UserProfile) (knowledgeBase : list FraudCase)
    (forcedType : option ForcedType) (rnd : RandomSource)
    : ScoreError + Transaction :=
  match up_history profile with
  | [] => inl InvalidProfile
  | _ :: _ =>
      let mean := up_mean profile in
      let spread := Js.max2 (up_stdDev profile) spreadFloor in
      let selected :=
        match forcedType with
        | Some SIGNATURE =>
            nth_error knowledgeBase
                      (rnd_caseIndex rnd mod length knowledgeBase)
        | _ => None
        end in
      (* 1. amount *)
      let amount :=
        match forcedType with
        | None => if rnd_anomaly rnd then rnd_anomalyAmount rnd
                  else mean + rnd_deviate rnd * spread
        | Some BEHAVIORAL => mean + rnd_sigmas rnd * spread
        | Some SIGNATURE => mean + rnd_deviate rnd * spread
        end in
      (* 2. z-score *)
      let zScore := (amount - mean) / Js.max2 (up_stdDev profile) epsilon in
      (* 3. signature match *)
      let signatureMatchScore :=
        match forcedType with
        | Some SIGNATURE => Js.max2 (85 # 100) (rnd_forcedSimilarity rnd)
        | _ => if rnd_coincidence rnd then rnd_midRange rnd
               else rnd_background rnd
        end in
      (* 4. velocity *)
      let velocityScore := Js.max2 0 (Js.min2 1 (rnd_velocity rnd)) in
      inr {| tx_id := rnd_id rnd;
             tx_timestamp := rnd_timestamp rnd;
             tx_amount := amount;
             tx_merchant := match selected with
                            | Some c => fc_merchant c
                            | None => rnd_merchant rnd
                            end;
             tx_merchantId := rnd_merchantId rnd;
             tx_narrative := match selected with
                             | Some c => fc_narrative c
                             | None => rnd_narrative rnd
                             end;
             tx_location := rnd_location rnd;
             tx_ip := rnd_ip rnd;
             tx_zScore := zScore;
             tx_velocityScore := velocityScore;
             tx_signatureMatchScore := signatureMatchScore;
             tx_matchedCaseId := option_map fc_id selected;
             (* 5. risk level *)
             tx_riskLevel := riskLevelOf zScore signatureMatchScore;
             (* 6. status *)
             tx_status := PENDING |}
  end.

End Score.

End Scorer.


(* ================================================================== *)
(** ** Hourly trend ([calculateHourlyTrend]) *)
(* ================================================================== *)

Record HourlyTrend := {
  ht_hour : Z;
  ht_fraudCount : Z;
  ht_totalCount : Z
}.

(** [Array.from({ length: 24 }, (_, i) => i)] mapped to empty buckets. *)
Definition emptyTrends : list HourlyTrend :=
  map (fun hour => {| ht_hour := Z.of_nat hour;
                      ht_fraudCount := 0;
                      ht_totalCount := 0 |})
      (seq 0 24).

(** The array with the element at [index] replaced. *)
Definition replaceAt {A} (index : nat) (x : A) (arr : list A) : list A :=
  firstn index arr ++ x :: skipn (S index) arr.

(** The body of the [forEach]: [trends[hour].totalCount++] and, for a
    fraud, [trends[hour].fraudCount++].  [None] is the [TypeError] raised
    when [trends[hour]] is [undefined]. *)
Definition countTransaction (hour : nat) (fraud : bool)
    (trends : list HourlyTrend) : option (list HourlyTrend) :=
  match nth_error trends hour with
  | None => None
  | Some bucket =>
      Some (replaceAt hour
              {| ht_hour := ht_hour bucket;
                 ht_fraudCount := if fraud then ht_fraudCount bucket + 1
                                  else ht_fraudCount bucket;
                 ht_totalCount := ht_totalCount bucket + 1 |}
              trends)
  end.

(** [getHours] is [new Date(timestamp).getHours()], the local hour of the
    timestamp; [None] is the [NaN] of an invalid date, which is the index
    of no bucket. *)
Definition calculateHourlyTrend (getHours : string -> option nat)
    (transactions : list Transaction) : option (list HourlyTrend) :=
  fold_left
    (fun acc tx =>
       match acc with
       | None => None
       | Some trends =>
           match getHours (tx_timestamp tx) with
           | None => None
           | Some hour => countTransaction hour (isFraudCase tx) trends
           end
       end)
    transactions (Some emptyTrends).

(* ================================================================== *)
(** ** Sanction lists and merchant ratings ([services/documentStore.ts]) *)
(* ================================================================== *)

Record SanctionEntity := {
  se_entity_id : string;
  se_name : string;
  se_type : string;
  se_country : string;
  se_reason : string;
  se_action : string
}.

Definition sanctionLists : list SanctionEntity :=
  [ {| se_entity_id := "SANC_001";
       se_name := "Crimson Trading LLC";
       se_type := "ORGANIZATION";
       se_country := "IRAN";
       se_reason := "OFAC SDN - State Sponsor of Terrorism";
       se_action := "BLOCK_ALL" |};
    {| se_entity_id := "SANC_002";
       se_name := "Viktor Petrov";
       se_type := "INDIVIDUAL";
       se_country := "RUSSIA";
       se_reason := "Oligarch - Economic Sanctions";
       se_action := "BLOCK_ALL" |};
    {| se_entity_id := "SANC_003";
       se_name := "North Korean Trade Finance Bank";
       se_type := "BANK";
       se_country := "NORTH_KOREA";
       se_reason := "OFAC SDN - Illicit Financial Activities";
       se_action := "BLOCK_ALL" |};
    {| se_entity_id := "SANC_004";
       se_name := "Hezbollah Financial Network";
       se_type := "ORGANIZATION";
       se_country := "LEBANON";
       se_reason := "UN Terrorist Organization";
       se_action := "BLOCK_ALL" |};
    {| se_entity_id := "SANC_005";
       se_name := "Ahmed Hassan Al-Mansouri";
       se_type := "INDIVIDUAL";
       se_country := "YEMEN";
       se_reason := "Sanctions Evader - Under Investigation";
       se_action := "REVIEW" |} ].

Record ComplianceIssue := {
  ci_issue : string;
  ci_severity : string;
  ci_date_reported : string
}.

Record MerchantRisk := {
  mr_id : string;
  mr_merchant_name : string;
  mr_merchant_type : string;
  mr_risk_tier : string;
  mr_risk_score : Q;
  mr_fraud_rate : Q;
  mr_chargeback_rate : Q;
  mr_compliance_issues : list ComplianceIssue;
  mr_action_on_transaction : string;
  mr_created_date : string;
  mr_updated_date : string
}.

Definition merchantRatings : list MerchantRisk :=
  [ {| mr_id := "MERCH_001";
       mr_merchant_name := "QuickMart Retail";
       mr_merchant_type := "E-Commerce";
       mr_risk_tier := "LOW";
       mr_risk_score := 12 # 10;
       mr_fraud_rate := 2 # 100;
       mr_chargeback_rate := 1 # 1000;
       mr_compliance_issues := [];
       mr_action_on_transaction := "AUTO_APPROVE";
       mr_created_date := "2023-06-01";
       mr_updated_date := "2024-11-20" |};
    {| mr_id := "MERCH_002";
       mr_merchant_name := "CryptoExchange Pro";
       mr_merchant_type := "Cryptocurrency";
       mr_risk_tier := "HIGH";
       mr_risk_score := 78 # 10;
       mr_fraud_rate := 15 # 100;
       mr_chargeback_rate := 8 # 100;
       mr_compliance_issues :=
         [ {| ci_issue := "KYC compliance gaps";
              ci_severity := "HIGH";
              ci_date_reported := "2024-10-15" |};
           {| ci_issue := "Suspected money laundering activity";
              ci_severity := "HIGH";
              ci_date_reported := "2024-11-05" |} ];
       mr_action_on_transaction := "FLAG";
       mr_created_date := "2023-09-01";
       mr_updated_date := "2024-11-18" |};
    {| mr_id := "MERCH_003";
       mr_merchant_name := "Adult Entertainment Inc";
       mr_merchant_type := "Adult Services";
       mr_risk_tier := "HIGH";
       mr_risk_score := 65 # 10;
       mr_fraud_rate := 12 # 100;
       mr_chargeback_rate := 10 # 100;
       mr_compliance_issues :=
         [ {| ci_issue := "High chargeback rate";
              ci_severity := "HIGH";
              ci_date_reported := "2024-11-01" |} ];
       mr_action_on_transaction := "REQUIRE_VERIFICATION";
       mr_created_date := "2023-08-15";
       mr_updated_date := "2024-11-19" |};
    {| mr_id := "MERCH_004";
       mr_merchant_name := "Global Tech Solutions";
       mr_merchant_type := "B2B Services";
       mr_risk_tier := "LOW";
       mr_risk_score := 21 # 10;
       mr_fraud_rate := 3 # 100;
       mr_chargeback_rate := 2 # 1000;
       mr_compliance_issues := [];
       mr_action_on_transaction := "AUTO_APPROVE";
       mr_created_date := "2023-07-20";
       mr_updated_date := "2024-11-17" |};
    {| mr_id := "MERCH_005";
       mr_merchant_name := "Suspicious Wire Transfer Co";
       mr_merchant_type := "Money Transfer";
       mr_risk_tier := "HIGH";
       mr_risk_score := 82 # 10;
       mr_fraud_rate := 22 # 100;
       mr_chargeback_rate := 15 # 100;
       mr_compliance_issues :=
         [ {| ci_issue := "Operating without proper licensing";
              ci_severity := "HIGH";
              ci_date_reported := "2024-08-20" |};
           {| ci_issue := "Multiple sanctions violations detected";
              ci_severity := "CRITICAL";
              ci_date_reported := "2024-11-10" |} ];
       mr_action_on_transaction := "BLOCK";
       mr_created_date := "2023-05-01";
       mr_updated_date := "2024-11-14" |} ].

(** The test of [checkSanctionStatus]: the listed name contains the query
    or the query contains the listed name, both in lower case. *)
Definition sanctionMatch (entityName : string) (s : SanctionEntity) : bool :=
  Js.strIncludes (Js.toLowerCase entityName) (Js.toLowerCase (se_name s))
  || Js.strIncludes (Js.toLowerCase (se_name s)) (Js.toLowerCase entityName).

(** [checkSanctionStatus] and [getMerchantRisk] read the module's tables;
    the table is the first argument here. *)
Definition checkSanctionStatusIn (table : list SanctionEntity)
    (entityName : string) : option SanctionEntity :=
  find (sanctionMatch entityName) table.

Definition getMerchantRiskIn (table : list MerchantRisk)
    (merchantName : string) : option MerchantRisk :=
  find (fun m => Js.streq (Js.toLowerCase (mr_merchant_name m))
                          (Js.toLowerCase merchantName))
       table.

Definition checkSanctionStatus : string -> option SanctionEntity :=
  checkSanctionStatusIn sanctionLists.

Definition getMerchantRisk : string -> option MerchantRisk :=
  getMerchantRiskIn merchantRatings.

(* ================================================================== *)
(** ** The audit log ([logAuditEvent], [getAuditLogs]) *)
(* ================================================================== *)

Inductive AuditEventType :=
| POLICY_CHANGE | TRANSACTION_BLOCKED | TRANSACTION_APPROVED.

Inductive ApprovalStatus := APPROVED | APPROVAL_PENDING | REJECTED.

(** [Details] is the type of the [details] object, a [Record<string, any>];
    [au_timestamp] is the instant the ISO string denotes. *)
Record AuditLog (Details : Type) := {
  au_id : string;
  au_timestamp : Z;
  au_event_type : AuditEventType;
  au_changed_by : string;
  au_details : Details;
  au_approval_status : ApprovalStatus
}.

(** [logAuditEvent] pushes onto the module's array [auditLogs], which is
    passed in and returned here; [clockId] and [clockTimestamp] are the
    readings of [Date.now()] and [new Date()]. *)
Definition logAuditEvent {Details} (clockId clockTimestamp : Z)
    (auditLogs : list (AuditLog Details)) (eventType : AuditEventType)
    (changedBy : string) (details : Details)
    (approvalStatus : ApprovalStatus)
    : AuditLog Details * list (AuditLog Details) :=
  let log := {| au_id := "AUDIT_" ++ Js.string_of_Z clockId;
                au_timestamp := clockTimestamp;
                au_event_type := eventType;
                au_changed_by := changedBy;
                au_details := details;
                au_approval_status := approvalStatus |} in
  (log, Js.push auditLogs log).

(** The default of the parameter [approvalStatus]. *)
Definition defaultApprovalStatus : ApprovalStatus := APPROVAL_PENDING.

(** [getAuditLogs]: [[...auditLogs].reverse().slice(0, limit)]. *)
Definition getAuditLogs {Details} (auditLogs : list (AuditLog Details))
    (limit : Z) : list (AuditLog Details) :=
  Js.slice 0 (Some limit) (rev auditLogs).

(** The default of the parameter [limit]. *)
Definition defaultAuditLimit : Z := 10.

(* ================================================================== *)
(** ** The selected transaction ([App]) *)
(* ================================================================== *)

(** [transactions.find(t => t.id === selectedTxId) || null]; no transaction
    has the id [undefined]. *)
Definition selectedTx (st : AppState) : option Transaction :=
  match selectedTxId st with
  | None => None
  | Some id => find (fun t => Js.streq (tx_id t) id) (transactions st)
  end.
(* ================================================================== *)
(** ** Notions the properties are stated with *)
(* ================================================================== *)

(** How many values are strictly below, and how many are at most, [x]. *)
Definition countBelow (l : list Q) (x : Q) : nat :=
  length (filter (fun y => Js.ltb y x) l).

Definition countAtMost (l : list Q) (x : Q) : nat :=
  length (filter (fun y => Qle_bool y x) l).

(** [z] is [x] rounded to the nearest integer, a tie going up. *)
Definition isNearestInteger (x : Q) (z : Z) : Prop :=
  (inject_Z z - (1 # 2) <= x /\ x < inject_Z z + (1 # 2))%Q.

(** The nearest-rank percentile in the words of the specification: [r] is
    the element at index [ceil(n * p) - 1] of an ascending arrangement of
    the values, rounded to the nearest integer. *)
Definition isNearestRank (values : list Q) (p : Q) (r : Q) : Prop :=
  exists (sorted : list Q) (x : Q) (z : Z),
    Permutation sorted values
    /\ Sorted Qle sorted
    /\ nth_error sorted
         (Z.to_nat (Qceiling (inject_Z (Z.of_nat (length values)) * p) - 1))
       = Some x
    /\ isNearestInteger x z
    /\ r = inject_Z z.

(** The ten response times of the example of the specification. *)
Definition tenResponseTimes : list Q :=
  [10; 20; 30; 40; 50; 60; 70; 80; 90; 100]%Q.

(** A transaction that is both of critical risk and blocked. *)
Definition isCriticalAndBlocked (t : Transaction) : bool :=
  RiskLevel_eqb (tx_riskLevel t) CRITICAL && TxStatus_eqb (tx_status t) BLOCKED.

(** A transaction with the given id, risk level and status, for examples. *)
Definition sampleTx (id : string) (risk : RiskLevel) (status : TxStatus)
    : Transaction :=
  {| tx_id := id;
     tx_timestamp := "2024-11-15T10:00:00.000Z";
     tx_amount := 50;
     tx_merchant := "Coffee Shop";
     tx_merchantId := "MERCH_001";
     tx_narrative := "Card payment";
     tx_location := "US";
     tx_ip := "10.0.0.1";
     tx_zScore := 0;
     tx_velocityScore := 0;
     tx_signatureMatchScore := 0;
     tx_matchedCaseId := None;
     tx_riskLevel := risk;
     tx_status := status |}.

(** Ten transactions, three of them critical and blocked. *)
Definition tenTransactions : list Transaction :=
  [ sampleTx "TX1" LOW PENDING; sampleTx "TX2" CRITICAL BLOCKED;
    sampleTx "TX3" LOW ALLOWED; sampleTx "TX4" MEDIUM FLAGGED;
    sampleTx "TX5" CRITICAL BLOCKED; sampleTx "TX6" LOW PENDING;
    sampleTx "TX7" MEDIUM ANALYZING; sampleTx "TX8" LOW ALLOWED;
    sampleTx "TX9" CRITICAL BLOCKED; sampleTx "TX10" LOW PENDING ].

(** The conditions of the two tiers of the system health, in the words of
    the specification. *)
Definition criticalTier (detectionRate falsePositiveRate avgResponseTime : Q)
    (alerts : list Alert) : Prop :=
  (5 < length (filter (fun a => Severity_eqb (al_severity a) SEV_CRITICAL)
                      alerts))%nat
  \/ (3 # 10 < falsePositiveRate)%Q
  \/ (5000 < avgResponseTime)%Q
  \/ (5 # 10 < detectionRate)%Q.

Definition warningTier (detectionRate falsePositiveRate avgResponseTime : Q)
    (alerts : list Alert) : Prop :=
  (10 < length alerts)%nat
  \/ (15 # 100 < falsePositiveRate)%Q
  \/ (2000 < avgResponseTime)%Q
  \/ (3 # 10 < detectionRate)%Q.

(** The order of the alert list in the words of the specification: a lower
    severity rank first and, at equal rank, the more recent first. *)
Definition alertBefore (a b : Alert) : Prop :=
  severityOrder (al_severity a) < severityOrder (al_severity b)
  \/ (severityOrder (al_severity a) = severityOrder (al_severity b)
      /\ al_timestamp b <= al_timestamp a).

(** Fifty firings of the pipeline interval followed by one injected fraud
    event. *)
Definition fiftyTicksThenTrigger : list Event :=
  repeat (EvTick (sampleTx "TX_STREAM" LOW PENDING) 1 1700000000000) 50
  ++ [EvTriggerFraud (sampleTx "TX_INJECTED" CRITICAL PENDING)].

(** How many cases of a knowledge base have the id [id]. *)
Definition countId (id : string) (kb : list FraudCase) : nat :=
  length (filter (fun c => Js.streq (fc_id c) id) kb).

(** What the specification says of [addCase]: the old knowledge base with
    one new case at the end, whose id is derived from the transaction id,
    whose narrative and merchant are the transaction's, and whose id occurs
    once in the result. *)
Definition addCaseAsSpecified (kb : list FraudCase) (tx : Transaction)
    (notes : string) : Prop :=
  exists c,
    addCase kb tx notes = kb ++ [c]
    /\ length (addCase kb tx notes) = S (length kb)
    /\ fc_id c = ("CASE_" ++ tx_id tx)%string
    /\ fc_narrative c = tx_narrative tx
    /\ fc_merchant c = tx_merchant tx
    /\ countId (fc_id c) (addCase kb tx notes) = 1%nat.

(** The two rows of the decision table, in the words of the
    specification. *)
Definition criticalRow (zScore signatureMatchScore : Q) : Prop :=
  (3 < Qabs zScore)%Q \/ (85 # 100 <= signatureMatchScore)%Q.

Definition mediumRow (zScore signatureMatchScore : Q) : Prop :=
  (15 # 10 < Qabs zScore)%Q \/ (5 # 10 <= signatureMatchScore)%Q.

(** A profile, a knowledge base and a random source, for examples. *)
Definition sampleProfile : UserProfile :=
  {| up_history := seedHistory; up_mean := 310 # 7; up_stdDev := 15 |}.

Definition sampleKnowledgeBase : list FraudCase :=
  [ {| fc_id := "CASE_001";
       fc_narrative := "Urgent wire transfer to overseas account";
       fc_merchant := "Global Wire Co";
       fc_type := "Wire Fraud";
       fc_vectorId := None |} ].

Definition sampleDraws : Scorer.RandomSource :=
  {| Scorer.rnd_id := "TX_1001";
     Scorer.rnd_timestamp := "2024-11-15T10:00:00.000Z";
     Scorer.rnd_merchant := "Coffee Shop";
     Scorer.rnd_merchantId := "MERCH_001";
     Scorer.rnd_narrative := "Card payment";
     Scorer.rnd_location := "US";
     Scorer.rnd_ip := "10.0.0.1";
     Scorer.rnd_deviate := 1 # 2;
     Scorer.rnd_anomaly := false;
     Scorer.rnd_anomalyAmount := 5000;
     Scorer.rnd_sigmas := 5;
     Scorer.rnd_caseIndex := 0;
     Scorer.rnd_forcedSimilarity := 92 # 100;
     Scorer.rnd_background := 1 # 10;
     Scorer.rnd_coincidence := false;
     Scorer.rnd_midRange := 6 # 10;
     Scorer.rnd_velocity := 3 # 10 |}.

(** The policy of the suspended customer, the last entry of the table. *)
Definition suspendedCustomerPolicy : CustomerPolicy :=
  {| cp_id := "CUST_POL_004";
     cp_user_id := "USER_SUSPENDED_001";
     cp_daily_limit := 0;
     cp_monthly_limit := 0;
     cp_requires_approval_above := 0;
     cp_allowed_countries := [];
     cp_blocked_countries := ["*"]%string;
     cp_max_transactions_per_day := 0;
     cp_risk_tier := "HIGH";
     cp_compliance_status := "FAILED_KYC" |}.

(** The events that go through the pipeline's own append, that is, all but
    the injected fraud event. *)
Definition notInjected (ev : Event) : Prop :=
  match ev with
  | EvTriggerFraud _ => False
  | _ => True
  end.

(* ================================================================== *)
(** ** Further notions and examples *)
(* ================================================================== *)

(** Three snapshots taken one second apart, for examples. *)
Definition threeSnapshots : list MetricsSnapshot :=
  [ {| ms_timestamp := 1700000002000; ms_responseTime := 12; ms_isFraud := false |};
    {| ms_timestamp := 1700000000000; ms_responseTime := 30; ms_isFraud := true |};
    {| ms_timestamp := 1700000001000; ms_responseTime := 7; ms_isFraud := false |} ].

(** The six alerts [generateAlerts] can push, one per rule, as the source
    builds them. *)
Definition fraudRateAlert (clk : Clock) (metrics : PartialDashboardMetrics)
    : Alert :=
  {| al_id := "ALERT_HIGH_FRAUD_" ++ Js.string_of_Z (now_high_fraud clk);
     al_severity := if Js.gtb (Js.orZero (pm_detection_rate metrics)) (2 # 10)
                    then SEV_CRITICAL else SEV_WARNING;
     al_title := "Elevated Fraud Detection Rate";
     al_description := DescFraudRate (Js.orZero (pm_detection_rate metrics));
     al_timestamp := now clk;
     al_related_transaction_id := None |}.

Definition falsePositiveAlert (clk : Clock) (metrics : PartialDashboardMetrics)
    : Alert :=
  {| al_id := "ALERT_FALSE_POS_" ++ Js.string_of_Z (now_false_pos clk);
     al_severity := SEV_WARNING;
     al_title := "High False Positive Rate";
     al_description :=
       DescFalsePositive (Js.orZero (pm_false_positive_rate metrics));
     al_timestamp := now clk - 300000;
     al_related_transaction_id := None |}.

Definition performanceAlert (clk : Clock) (metrics : PartialDashboardMetrics)
    : Alert :=
  {| al_id := "ALERT_PERFORMANCE_" ++ Js.string_of_Z (now_performance clk);
     al_severity := if Js.gtb (Js.orZero (pm_avg_response_time_ms metrics)) 5000
                    then SEV_CRITICAL else SEV_WARNING;
     al_title := "System Performance Degradation";
     al_description :=
       DescPerformance (Js.orZero (pm_avg_response_time_ms metrics));
     al_timestamp := now clk - 600000;
     al_related_transaction_id := None |}.

Definition highValueAlert (clk : Clock) (highValueFraud : Transaction) : Alert :=
  {| al_id := "ALERT_HIGH_VALUE_" ++ Js.string_of_Z (now_high_value clk);
     al_severity := SEV_CRITICAL;
     al_title := "High-Value Fraud Detected";
     al_description := DescHighValue (tx_amount highValueFraud)
                                     (tx_merchant highValueFraud);
     al_timestamp := now clk;
     al_related_transaction_id := Some (tx_id highValueFraud) |}.

Definition merchantRiskAlert (clk : Clock) (highRiskMerchant : Transaction)
    : Alert :=
  {| al_id := "ALERT_MERCHANT_RISK_" ++ Js.string_of_Z (now_merchant_risk clk);
     al_severity := SEV_WARNING;
     al_title := "High-Risk Merchant Activity";
     al_description := DescMerchantRisk (tx_merchant highRiskMerchant);
     al_timestamp := now clk - 1200000;
     al_related_transaction_id := Some (tx_id highRiskMerchant) |}.

Definition velocityAlert (clk : Clock) (transactions : list Transaction)
    : Alert :=
  {| al_id := "ALERT_VELOCITY_" ++ Js.string_of_Z (now_velocity clk);
     al_severity := SEV_WARNING;
     al_title := "Abnormal Transaction Velocity";
     al_description :=
       DescVelocity (Js.len (Js.slice 0 (Some 10) transactions));
     al_timestamp := now clk - 180000;
     al_related_transaction_id := None |}.

(** A singleton when the condition holds, nothing otherwise. *)
Definition when {A} (c : bool) (x : A) : list A := if c then [x] else [].

Definition whenSome {A B} (o : option A) (f : A -> B) : list B :=
  match o with Some x => [f x] | None => [] end.

(** A clock, for examples. *)
Definition sampleClock : Clock :=
  {| now := 1700000000000;
     now_high_fraud := 1700000000001;
     now_false_pos := 1700000000001;
     now_performance := 1700000000001;
     now_high_value := 1700000000002;
     now_merchant_risk := 1700000000002;
     now_velocity := 1700000000002 |}.

(** [sub] occurs in [s]. *)
Definition occursIn (sub s : string) : Prop :=
  exists pre post, s = (pre ++ sub ++ post)%string.

(** The transactions the high-value rule and the merchant rule look for. *)
Definition highValueCritical (t : Transaction) : Prop :=
  tx_riskLevel t = CRITICAL /\ (10000 < tx_amount t)%Q.

Definition riskyMerchantName (t : Transaction) : Prop :=
  occursIn "crypto" (Js.toLowerCase (tx_merchant t))
  \/ occursIn "wire" (Js.toLowerCase (tx_merchant t))
  \/ occursIn "transfer" (Js.toLowerCase (tx_merchant t)).

(** [t] is the first element of [l] that satisfies [P]. *)
Definition firstSuchThat {A} (P : A -> Prop) (l : list A) (t : A) : Prop :=
  exists pre post, l = pre ++ t :: post /\ Forall (fun u => ~ P u) pre /\ P t.

(** The sum of a list of integers. *)
Definition sumZ (l : list Z) : Z := fold_right Z.add 0 l.

(** The transaction falls in the hour [k]. *)
Definition inHour (getHours : string -> option nat) (k : nat)
    (t : Transaction) : bool :=
  match getHours (tx_timestamp t) with
  | Some h => Nat.eqb h k
  | None => false
  end.

(** Every timestamp is a valid date, with an hour of the day. *)
Definition validHours (getHours : string -> option nat)
    (txs : list Transaction) : Prop :=
  forall t, In t txs ->
            exists h, getHours (tx_timestamp t) = Some h /\ (h < 24)%nat.

(** A clock for examples: every timestamp falls in the tenth hour. *)
Definition tenOClock (timestamp : string) : option nat := Some 10%nat.

(** The query and the listed name overlap: one occurs in the other, the
    case of ASCII letters apart. *)
Definition namesOverlap (entityName : string) (s : SanctionEntity) : Prop :=
  occursIn (Js.toLowerCase entityName) (Js.toLowerCase (se_name s))
  \/ occursIn (Js.toLowerCase (se_name s)) (Js.toLowerCase entityName).

(** An audit store with two older events, the details being strings. *)
Definition sampleAuditLogs : list (AuditLog string) :=
  [ {| au_id := "AUDIT_001";
       au_timestamp := 1699996400000;
       au_event_type := POLICY_CHANGE;
       au_changed_by := "compliance-admin";
       au_details := "Updated transaction velocity threshold"%string;
       au_approval_status := APPROVED |};
    {| au_id := "AUDIT_002";
       au_timestamp := 1699992800000;
       au_event_type := TRANSACTION_BLOCKED;
       au_changed_by := "system";
       au_details := "Merchant on sanction list"%string;
       au_approval_status := APPROVED |} ].

(** The transactions the analyst confirmed as fraud, in order. *)
Definition confirmedTransactions (evs : list Event) : list Transaction :=
  flat_map (fun ev => match ev with
                      | EvAddToKnowledgeBase tx _ => [tx]
                      | _ => []
                      end) evs.

(** The transactions the scorer produced for the events, in order. *)
Definition scoredTransactions (evs : list Event) : list Transaction :=
  flat_map (fun ev => match ev with
                      | EvTick newTx _ _ => [newTx]
                      | EvTriggerFraud newTx => [newTx]
                      | _ => []
                      end) evs.

(** The amounts of the low-risk transactions of the pipeline. *)
Definition lowRiskAmounts (evs : list Event) : list Q :=
  flat_map (fun ev => match ev with
                      | EvTick newTx _ _ =>
                          if RiskLevel_eqb (tx_riskLevel newTx) LOW
                          then [tx_amount newTx] else []
                      | _ => []
                      end) evs.

(** A state with a list of 60 transactions, above the cap, for examples. *)
Definition crowdedState : AppState :=
  {| transactions := repeat (sampleTx "TX_OLD" LOW ALLOWED) 60;
     knowledgeBase := [];
     selectedTxId := None;
     isPaused := false;
     metricsHistoryRef := [];
     historyRef := seedHistory |}.
(* ================================================================== *)
(** ** Helper lemmas on the JavaScript helpers *)
(* ================================================================== *)

Lemma ltb_lt (a b : Q) : Js.ltb a b = true <-> (a < b)%Q.
Proof.
  unfold Js.ltb. rewrite negb_true_iff.
  destruct (Qle_bool b a) eqn:E.
  - apply Qle_bool_iff in E. split; [discriminate | intro H; exfalso; lra].
  - split; [intros _ | reflexivity].
    destruct (Qlt_le_dec a b) as [H | H]; [exact H |].
    apply Qle_bool_iff in H. congruence.
Qed.

Lemma gtb_gt (a b : Q) : Js.gtb a b = true <-> (b < a)%Q.
Proof. unfold Js.gtb. apply ltb_lt. Qed.

Lemma slice_last_n {A} (n : nat) (l : list A) :
  (0 < n)%nat ->
  Js.slice (- Z.of_nat n) None l = skipn (length l - n) l.
Proof.
  intros Hn. unfold Js.slice, Js.relIndex.
  destruct (Z.ltb_spec (- Z.of_nat n) 0) as [_ | H]; [| lia].
  set (len := Z.of_nat (length l)).
  assert (Hk : Z.to_nat (Z.max (len + - Z.of_nat n) 0) = (length l - n)%nat)
    by (subst len; lia).
  rewrite Hk. apply firstn_all2. rewrite length_skipn. subst len. lia.
Qed.

Lemma slice_first_n {A} (n : nat) (l : list A) :
  Js.slice 0 (Some (Z.of_nat n)) l = firstn n l.
Proof.
  unfold Js.slice, Js.relIndex.
  destruct (Z.ltb_spec (Z.of_nat n) 0) as [H | _]; [lia |].
  destruct (Z.ltb_spec 0 0) as [H | _]; [lia |].
  replace (Z.to_nat (Z.min 0 (Z.of_nat (length l)))) with 0%nat by lia.
  simpl skipn.
  destruct (Nat.le_gt_cases n (length l)) as [H | H].
  - f_equal. lia.
  - rewrite !firstn_all2; [reflexivity | lia | lia].
Qed.


(* ================================================================== *)
(** ** The sort *)
(* ================================================================== *)

Section SortFacts.

Context {A : Type} (leb : A -> A -> bool).

Let le (a b : A) : Prop := leb a b = true.

Lemma insert_perm (x : A) (l : list A) :
  Permutation (Js.insert leb x l) (x :: l).
Proof.
  induction l as [| y l IH]; simpl.
  - reflexivity.
  - destruct (leb x y).
    + reflexivity.
    + rewrite IH. apply perm_swap.
Qed.

Lemma sort_perm (l : list A) : Permutation (Js.sort leb l) l.
Proof.
  induction l as [| x l IH]; simpl.
  - reflexivity.
  - rewrite insert_perm. now apply perm_skip.
Qed.

Lemma sort_length (l : list A) : length (Js.sort leb l) = length l.
Proof. apply Permutation_length, sort_perm. Qed.

Hypothesis leb_total : forall a b, leb a b = true \/ leb b a = true.
Hypothesis leb_trans :
  forall a b c, leb a b = true -> leb b c = true -> leb a c = true.

Lemma insert_sorted (x : A) (l : list A) :
  StronglySorted le l -> StronglySorted le (Js.insert leb x l).
Proof.
  induction 1 as [| y l Hs IH Hy]; simpl.
  - repeat constructor.
  - destruct (leb x y) eqn:E.
    + constructor; [constructor; assumption |].
      constructor; [exact E |].
      eapply Forall_impl; [| exact Hy].
      intros z Hz. eapply leb_trans; eassumption.
    + constructor; [exact IH |].
      eapply Permutation_Forall; [symmetry; apply insert_perm |].
      constructor; [| exact Hy].
      destruct (leb_total x y) as [H | H]; [congruence | exact H].
Qed.

Lemma sort_sorted (l : list A) : StronglySorted le (Js.sort leb l).
Proof.
  induction l as [| x l IH]; simpl.
  - constructor.
  - now apply insert_sorted.
Qed.

End SortFacts.

(* ================================================================== *)
(** ** Counting and ranks *)
(* ================================================================== *)

Lemma filter_length_perm {A} (f : A -> bool) (l l' : list A) :
  Permutation l l' -> length (filter f l) = length (filter f l').
Proof.
  induction 1 as [| x l l' _ IH | x y l | l l' l'' _ IH1 _ IH2]; simpl.
  - reflexivity.
  - destruct (f x); simpl; congruence.
  - destruct (f x), (f y); reflexivity.
  - congruence.
Qed.

Lemma filter_length_mono {A} (f g : A -> bool) (l : list A) :
  (forall x, In x l -> f x = true -> g x = true) ->
  (length (filter f l) <= length (filter g l))%nat.
Proof.
  induction l as [| x l IH]; simpl; intros H.
  - lia.
  - assert (IH' : (length (filter f l) <= length (filter g l))%nat)
      by (apply IH; intros y Hy; apply H; now right).
    destruct (f x) eqn:Ef.
    + rewrite (H x (or_introl eq_refl) Ef). simpl. lia.
    + destruct (g x); simpl; lia.
Qed.

Lemma countBelow_of_lower_bound (l : list Q) (a : Q) :
  Forall (Qle a) l -> countBelow l a = 0%nat.
Proof.
  unfold countBelow. induction 1 as [| y l Hy _ IH]; simpl.
  - reflexivity.
  - destruct (Js.ltb y a) eqn:E; [| exact IH].
    apply ltb_lt in E. exfalso. lra.
Qed.

(** In an ascending list the element at index [k] has at most [k] values
    strictly below it and more than [k] values at most equal to it. *)
Lemma rank_of_sorted (s : list Q) :
  StronglySorted Qle s ->
  forall k x, nth_error s k = Some x ->
              (countBelow s x <= k < countAtMost s x)%nat.
Proof.
  induction 1 as [| a s Hs IH Ha]; intros k x Hk.
  - destruct k; discriminate.
  - destruct k as [| k]; simpl in Hk.
    + injection Hk as <-. unfold countBelow, countAtMost. simpl.
      assert (Ea : Js.ltb a a = false).
      { destruct (Js.ltb a a) eqn:E; [| reflexivity].
        apply ltb_lt in E. exfalso. lra. }
      rewrite Ea.
      assert (El : Qle_bool a a = true) by (apply Qle_bool_iff; lra).
      rewrite El. simpl.
      pose proof (countBelow_of_lower_bound Ha) as H0.
      unfold countBelow in H0. lia.
    + specialize (IH k x Hk).
      assert (Hax : (a <= x)%Q).
      { rewrite Forall_forall in Ha. apply Ha. eapply nth_error_In; eauto. }
      unfold countBelow, countAtMost in *. simpl.
      assert (El : Qle_bool a x = true) by (now apply Qle_bool_iff).
      rewrite El. simpl.
      destruct (Js.ltb a x); simpl; lia.
Qed.

(** Two ascending arrangements of the same values agree, as numbers, at
    every index. *)
Lemma sorted_perm_nth_unique (l s1 s2 : list Q) (k : nat) (x1 x2 : Q) :
  Permutation s1 l -> StronglySorted Qle s1 ->
  Permutation s2 l -> StronglySorted Qle s2 ->
  nth_error s1 k = Some x1 -> nth_error s2 k = Some x2 ->
  (x1 == x2)%Q.
Proof.
  intros P1 S1 P2 S2 N1 N2.
  pose proof (rank_of_sorted S1 _ N1) as [B1 A1].
  pose proof (rank_of_sorted S2 _ N2) as [B2 A2].
  unfold countBelow, countAtMost in *.
  rewrite (filter_length_perm _ P1) in B1. rewrite (filter_length_perm _ P1) in A1.
  rewrite (filter_length_perm _ P2) in B2. rewrite (filter_length_perm _ P2) in A2.
  destruct (Q_dec x1 x2) as [[Hlt | Hgt] | Heq]; [| | exact Heq]; exfalso.
  - assert (H : (length (filter (fun y => Qle_bool y x1) l)
                 <= length (filter (fun y => Js.ltb y x2) l))%nat).
    { apply filter_length_mono. intros y _ Hy.
      apply Qle_bool_iff in Hy. apply ltb_lt. lra. }
    lia.
  - assert (H : (length (filter (fun y => Qle_bool y x2) l)
                 <= length (filter (fun y => Js.ltb y x1) l))%nat).
    { apply filter_length_mono. intros y _ Hy.
      apply Qle_bool_iff in Hy. apply ltb_lt. lra. }
    lia.
Qed.

Lemma round_comp (x y : Q) : (x == y)%Q -> Js.round x = Js.round y.
Proof.
  intros H. unfold Js.round. f_equal. apply Qfloor_comp. now rewrite H.
Qed.

Lemma len_gt (A : Type) (l : list A) (n : nat) :
  Js.gtb (Js.len l) (inject_Z (Z.of_nat n)) = true <-> (n < length l)%nat.
Proof.
  rewrite gtb_gt. unfold Js.len. rewrite <- Zlt_Qlt. lia.
Qed.

Lemma len_gt_0 (A : Type) (l : list A) :
  Js.gtb (Js.len l) 0 = true <-> l <> [].
Proof.
  rewrite (len_gt l 0). destruct l; simpl; split; try lia; congruence.
Qed.
(* ================================================================== *)
(** ** The snapshot log *)
(* ================================================================== *)

Lemma snapshot_log_length (clock : Z) (history : list MetricsSnapshot)
    (responseTime : Q) (isFraud : bool) :
  length (recordMetricsSnapshot clock history responseTime isFraud
                                defaultMaxHistorySize)
  = Nat.min (length history + 1) 1000.
Proof.
  unfold recordMetricsSnapshot, defaultMaxHistorySize.
  set (updated := history ++ [_]).
  assert (Hlen : length updated = (length history + 1)%nat)
    by (subst updated; now rewrite length_app).
  destruct (Z.gtb_spec (Z.of_nat (length updated)) 1000) as [H | H].
  - pose proof (@slice_last_n _ 1000 updated) as S.
    change (Z.of_nat 1000) with 1000 in S.
    rewrite S by lia. rewrite length_skipn. lia.
  - lia.
Qed.

(** C8. [recordMetricsSnapshot], at its default capacity of 1000, returns
    the last [min (old length + 1) 1000] entries of the input log followed
    by one new entry that carries the clock reading, the response time and
    the fraud flag: the new entry is the last one, the entries before it are
    the most recent entries of the input in their order, and the oldest
    ones are the ones dropped. *)
Theorem recordMetricsSnapshot_appends_and_caps :
  forall (now : Z) (history : list MetricsSnapshot) (responseTime : Q)
         (isFraud : bool),
    let snapshot := {| ms_timestamp := now;
                       ms_responseTime := responseTime;
                       ms_isFraud := isFraud |} in
    let result := recordMetricsSnapshot now history responseTime isFraud
                                        defaultMaxHistorySize in
    result = skipn (length history + 1 - 1000) (history ++ [snapshot])
    /\ result = skipn (length history + 1 - 1000) history ++ [snapshot]
    /\ length result = Nat.min (length history + 1) 1000
    /\ ((length history + 1 <= 1000)%nat -> result = history ++ [snapshot]).
Proof.
  intros now history responseTime isFraud snapshot result.
  assert (E : result = skipn (length history + 1 - 1000) (history ++ [snapshot])).
  { subst result. unfold recordMetricsSnapshot, defaultMaxHistorySize.
    fold snapshot.
    destruct (Z.gtb_spec (Z.of_nat (length (history ++ [snapshot]))) 1000) as [H | H].
    - pose proof (@slice_last_n _ 1000 (history ++ [snapshot])) as S.
      change (Z.of_nat 1000) with 1000 in S.
      rewrite S by lia. rewrite length_app. reflexivity.
    - rewrite length_app in H. simpl in H.
      replace (length history + 1 - 1000)%nat with 0%nat by lia. reflexivity. }
  split; [exact E |]. split; [| split].
  - rewrite E. rewrite skipn_app.
    replace (length history + 1 - 1000 - length history)%nat with 0%nat by lia.
    reflexivity.
  - rewrite E, length_skipn, length_app. simpl. lia.
  - intros H. rewrite E.
    replace (length history + 1 - 1000)%nat with 0%nat by lia. reflexivity.
Qed.

(* ================================================================== *)
(** ** Percentiles *)
(* ================================================================== *)

Lemma Qle_trans' : forall a b c : Q, (a <= b)%Q -> (b <= c)%Q -> (a <= c)%Q.
Proof. intros; lra. Qed.

Lemma sorted_strongly (s : list Q) : Sorted Qle s -> StronglySorted Qle s.
Proof. apply Sorted_StronglySorted. exact Qle_trans'. Qed.

Lemma numeric_sort_sorted (values : list Q) :
  StronglySorted Qle (Js.sort (fun a b => Qle_bool (a - b) 0) values).
Proof.
  assert (E : forall a b, Qle_bool (a - b) 0 = true <-> (a <= b)%Q).
  { intros a b. rewrite Qle_bool_iff. split; intro; lra. }
  assert (S : StronglySorted (fun a b => Qle_bool (a - b) 0 = true)
                (Js.sort (fun a b => Qle_bool (a - b) 0) values)).
  { apply sort_sorted.
    - intros a b. rewrite !E. destruct (Qlt_le_dec a b); [left | right]; lra.
    - intros a b c. rewrite !E. intros; lra. }
  induction S as [| a l _ IH Ha]; constructor; [exact IH |].
  eapply Forall_impl; [| exact Ha]. intros b. apply E.
Qed.

Lemma Qfloor_unique (y : Q) (z : Z) :
  (inject_Z z <= y)%Q -> (y < inject_Z z + 1)%Q -> Qfloor y = z.
Proof.
  intros H1 H2.
  pose proof (Qfloor_le y) as F1. pose proof (Qlt_floor y) as F2.
  rewrite inject_Z_plus in F2. change (inject_Z 1) with 1%Q in F2.
  assert (A : (Qfloor y < z + 1)%Z).
  { rewrite Zlt_Qlt. rewrite inject_Z_plus. change (inject_Z 1) with 1%Q. lra. }
  assert (B : (z < Qfloor y + 1)%Z).
  { rewrite Zlt_Qlt. rewrite inject_Z_plus. change (inject_Z 1) with 1%Q. lra. }
  lia.
Qed.

Lemma round_nearest (x : Q) : isNearestInteger x (Qfloor (x + (1 # 2))).
Proof.
  unfold isNearestInteger.
  pose proof (Qfloor_le (x + (1 # 2))) as F1.
  pose proof (Qlt_floor (x + (1 # 2))) as F2.
  rewrite inject_Z_plus in F2. change (inject_Z 1) with 1%Q in F2.
  split; lra.
Qed.

Lemma nearest_integer_unique (x : Q) (z : Z) :
  isNearestInteger x z -> z = Qfloor (x + (1 # 2)).
Proof.
  intros [H1 H2]. symmetry. apply Qfloor_unique; lra.
Qed.

(** The rank [ceil(n * p)] lies in [1 .. n] for a non-empty array and a
    percentile in (0, 1]. *)
Lemma rank_in_range (n : nat) (p : Q) :
  (0 < n)%nat -> (0 < p)%Q -> (p <= 1)%Q ->
  (1 <= Qceiling (inject_Z (Z.of_nat n) * p) <= Z.of_nat n)%Z.
Proof.
  intros Hn Hp0 Hp1.
  assert (Hq : (0 < inject_Z (Z.of_nat n))%Q).
  { change 0%Q with (inject_Z 0). rewrite <- Zlt_Qlt. lia. }
  set (q := inject_Z (Z.of_nat n)) in *.
  assert (Hpos : (0 < q * p)%Q) by nra.
  assert (Hle : (q * p <= q)%Q) by nra.
  split.
  - pose proof (Qle_ceiling (q * p)) as C.
    assert (0 < Qceiling (q * p))%Z; [| lia].
    rewrite Zlt_Qlt. change (inject_Z 0) with 0%Q. lra.
  - pose proof (Qceiling_resp_le _ _ Hle) as C.
    subst q. now rewrite Qceiling_Z in C.
Qed.

Lemma calculatePercentile_nearest_rank (values : list Q) (p : Q) :
  values <> [] -> (0 < p)%Q -> (p <= 1)%Q ->
  exists r, calculatePercentile values p = Some r
            /\ isNearestRank values p r
            /\ (forall r', isNearestRank values p r' -> r' = r).
Proof.
  intros Hne Hp0 Hp1.
  assert (Hn : (0 < length values)%nat)
    by (destruct values; [congruence | simpl; lia]).
  unfold calculatePercentile.
  destruct (Nat.eqb_spec (length values) 0) as [E | _]; [lia |].
  set (sorted := Js.sort (fun a b => Qle_bool (a - b) 0) values).
  assert (Hlen : length sorted = length values) by apply sort_length.
  unfold Js.len, Js.ceil. rewrite Hlen.
  pose proof (rank_in_range Hn Hp0 Hp1) as [R1 R2].
  set (c := Qceiling (inject_Z (Z.of_nat (length values)) * p)) in *.
  rewrite Z.max_r by lia.
  destruct (nth_error sorted (Z.to_nat (c - 1))) as [x |] eqn:Nx.
  2:{ apply nth_error_None in Nx. lia. }
  exists (Js.round x). split; [reflexivity |].
  assert (Hperm : Permutation sorted values) by apply sort_perm.
  assert (Hsorted : StronglySorted Qle sorted) by apply numeric_sort_sorted.
  split.
  - exists sorted, x, (Qfloor (x + (1 # 2))).
    repeat split; try assumption.
    + now apply StronglySorted_Sorted.
    + apply round_nearest.
    + apply round_nearest.
  - intros r' (s' & x' & z' & P' & S' & N' & I' & ->).
    fold c in N'.
    assert (Ex : (x' == x)%Q).
    { eapply sorted_perm_nth_unique with (l := values) (s1 := s') (s2 := sorted);
        eauto using sorted_strongly. }
    rewrite (nearest_integer_unique I').
    now apply round_comp.
Qed.

(** C3. The p95 and p99 latencies of [calculateMetrics] are nearest-rank
    percentiles of the response times of the snapshot log: both are 0 for
    an empty log; for a non-empty one each is a number (never [NaN]), it is
    the element at index [ceil(n * p) - 1] of the response times sorted
    ascending, rounded to the nearest integer, and it is the only such
    value; for the ten response times 10, 20, ..., 100 both are 100. *)
Theorem calculateMetrics_percentiles_nearest_rank :
  forall (txs : list Transaction) (history : list MetricsSnapshot)
         (alerts : list Alert),
    let responseTimes := map ms_responseTime history in
    let m := calculateMetrics txs history alerts in
    (responseTimes = [] ->
       p95_latency_ms m = Some 0%Q /\ p99_latency_ms m = Some 0%Q)
    /\ (responseTimes <> [] ->
        exists r95 r99,
          p95_latency_ms m = Some r95 /\ p99_latency_ms m = Some r99
          /\ isNearestRank responseTimes (95 # 100) r95
          /\ isNearestRank responseTimes (99 # 100) r99
          /\ (forall r, isNearestRank responseTimes (95 # 100) r -> r = r95)
          /\ (forall r, isNearestRank responseTimes (99 # 100) r -> r = r99))
    /\ (responseTimes = tenResponseTimes ->
        p95_latency_ms m = Some 100%Q /\ p99_latency_ms m = Some 100%Q).
Proof.
  intros txs history alerts responseTimes m.
  change (p95_latency_ms m) with (calculatePercentile responseTimes (95 # 100)).
  change (p99_latency_ms m) with (calculatePercentile responseTimes (99 # 100)).
  split; [| split].
  - intros ->. split; reflexivity.
  - intros Hne.
    destruct (@calculatePercentile_nearest_rank responseTimes (95 # 100) Hne)
      as (r95 & E95 & I95 & U95); [reflexivity | discriminate |].
    destruct (@calculatePercentile_nearest_rank responseTimes (99 # 100) Hne)
      as (r99 & E99 & I99 & U99); [reflexivity | discriminate |].
    exists r95, r99. repeat split; assumption.
  - intros ->. split; vm_compute; reflexivity.
Qed.

(* ================================================================== *)
(** ** Detection rate *)
(* ================================================================== *)

Lemma RiskLevel_eqb_eq (a b : RiskLevel) : RiskLevel_eqb a b = true <-> a = b.
Proof. destruct a, b; simpl; split; congruence. Qed.

Lemma TxStatus_eqb_eq (a b : TxStatus) : TxStatus_eqb a b = true <-> a = b.
Proof. destruct a, b; simpl; split; congruence. Qed.

Lemma Severity_eqb_eq (a b : Severity) : Severity_eqb a b = true <-> a = b.
Proof. destruct a, b; simpl; split; congruence. Qed.

Lemma isFraudCase_iff (t : Transaction) :
  isFraudCase t = true <-> tx_riskLevel t = CRITICAL \/ tx_status t = BLOCKED.
Proof.
  unfold isFraudCase.
  now rewrite orb_true_iff, RiskLevel_eqb_eq, TxStatus_eqb_eq.
Qed.

Lemma detection_rate_eq (txs : list Transaction) (history : list MetricsSnapshot)
    (alerts : list Alert) :
  detection_rate (calculateMetrics txs history alerts)
  = if Js.gtb (Js.len txs) 0
    then (Js.len (filter isFraudCase txs) / Js.len txs)%Q else 0%Q.
Proof. reflexivity. Qed.

(** C2. The detection rate of [calculateMetrics] is the number of
    transactions of critical risk or blocked status divided by the number
    of transactions, and 0 for no transaction, whatever the snapshot log and
    the alerts; it is the same for every reordering of the transactions; and
    ten transactions of which exactly three are critical and blocked, no
    other being critical or blocked, give 3/10. *)
Theorem detection_rate_is_fraud_fraction :
  forall (txs : list Transaction) (history : list MetricsSnapshot)
         (alerts : list Alert),
    let m := calculateMetrics txs history alerts in
    (forall t, isFraudCase t = true
               <-> tx_riskLevel t = CRITICAL \/ tx_status t = BLOCKED)
    /\ (txs = [] -> detection_rate m = 0%Q)
    /\ (txs <> [] ->
        (detection_rate m
         == inject_Z (Z.of_nat (length (filter isFraudCase txs)))
            / inject_Z (Z.of_nat (length txs)))%Q)
    /\ (forall txs' history' alerts',
          Permutation txs txs' ->
          detection_rate (calculateMetrics txs' history' alerts')
          = detection_rate m)
    /\ (length txs = 10%nat ->
        length (filter isCriticalAndBlocked txs) = 3%nat ->
        (forall t, In t txs -> isFraudCase t = true ->
                   isCriticalAndBlocked t = true) ->
        (detection_rate m == 3 # 10)%Q).
Proof.
  intros txs history alerts m. subst m.
  split; [exact isFraudCase_iff |].
  split; [intros ->; reflexivity |].
  split; [| split].
  - intros Hne. rewrite detection_rate_eq.
    apply len_gt_0 in Hne. rewrite Hne. reflexivity.
  - intros txs' history' alerts' P. rewrite !detection_rate_eq.
    unfold Js.len.
    rewrite (filter_length_perm isFraudCase P), (Permutation_length P).
    reflexivity.
  - intros Hlen Hcount Honly. rewrite detection_rate_eq.
    assert (Hne : txs <> []) by (destruct txs; [discriminate | congruence]).
    apply len_gt_0 in Hne. rewrite Hne. unfold Js.len.
    assert (E : filter isFraudCase txs = filter isCriticalAndBlocked txs).
    { apply filter_ext_in. intros t Ht.
      destruct (isFraudCase t) eqn:F.
      - symmetry. now apply Honly.
      - symmetry. unfold isFraudCase in F. unfold isCriticalAndBlocked.
        apply orb_false_iff in F as [-> _]. reflexivity. }
    rewrite E, Hcount, Hlen. reflexivity.
Qed.

(** The example of the specification, evaluated. *)
Example detection_rate_ten_transactions :
  (detection_rate (calculateMetrics tenTransactions [] []) == 3 # 10)%Q
  /\ (detection_rate (calculateMetrics (rev tenTransactions) [] []) == 3 # 10)%Q.
Proof. split; vm_compute; reflexivity. Qed.

(* ================================================================== *)
(** ** System health *)
(* ================================================================== *)

Lemma criticalTier_reflect (dr fpr avg : Q) (alerts : list Alert) :
  Js.gtb (Js.len (filter (fun a => Severity_eqb (al_severity a) SEV_CRITICAL)
                         alerts)) 5
  || Js.gtb fpr (3 # 10) || Js.gtb avg 5000 || Js.gtb dr (5 # 10) = true
  <-> criticalTier dr fpr avg alerts.
Proof.
  unfold criticalTier. rewrite !orb_true_iff.
  change 5%Q with (inject_Z (Z.of_nat 5)). rewrite len_gt, !gtb_gt. tauto.
Qed.

Lemma warningTier_reflect (dr fpr avg : Q) (alerts : list Alert) :
  Js.gtb (Js.len alerts) 10
  || Js.gtb fpr (15 # 100) || Js.gtb avg 2000 || Js.gtb dr (3 # 10) = true
  <-> warningTier dr fpr avg alerts.
Proof.
  unfold warningTier. rewrite !orb_true_iff.
  change 10%Q with (inject_Z (Z.of_nat 10)). rewrite len_gt, !gtb_gt. tauto.
Qed.

(** C4. [determineSystemHealth] returns CRITICAL exactly when more than 5
    alerts are of critical severity, or the false-positive rate is above
    0.30, or the average latency is above 5000 ms, or the detection rate is
    above 0.50; otherwise WARNING exactly when there are more than 10
    alerts, or the false-positive rate is above 0.15, or the average latency
    is above 2000 ms, or the detection rate is above 0.30; otherwise
    NORMAL. *)
Theorem determineSystemHealth_tiers :
  forall (detectionRate falsePositiveRate avgResponseTime : Q)
         (alerts : list Alert),
    let health := determineSystemHealth detectionRate falsePositiveRate
                                        avgResponseTime alerts in
    let critical := criticalTier detectionRate falsePositiveRate
                                 avgResponseTime alerts in
    let warning := warningTier detectionRate falsePositiveRate
                               avgResponseTime alerts in
    (health = H_CRITICAL <-> critical)
    /\ (health = H_WARNING <-> ~ critical /\ warning)
    /\ (health = H_NORMAL <-> ~ critical /\ ~ warning).
Proof.
  intros dr fpr avg alerts health critical warning.
  subst health critical warning. unfold determineSystemHealth.
  pose proof (criticalTier_reflect dr fpr avg alerts) as C.
  pose proof (warningTier_reflect dr fpr avg alerts) as W.
  destruct (_ || _ || _ || _) eqn:EC in C |- *.
  - assert (HC : criticalTier dr fpr avg alerts) by now apply C.
    repeat split; try tauto; try discriminate.
  - assert (HC : ~ criticalTier dr fpr avg alerts)
      by (intro H; apply C in H; discriminate).
    destruct (_ || _ || _ || _) eqn:EW in W |- *.
    + assert (HW : warningTier dr fpr avg alerts) by now apply W.
      repeat split; try tauto; try discriminate.
    + assert (HW : ~ warningTier dr fpr avg alerts)
        by (intro H; apply W in H; discriminate).
      repeat split; try tauto; try discriminate.
Qed.

(** The health of [calculateMetrics] is that classification of its own
    detection rate, false-positive rate and average latency. *)
Lemma calculateMetrics_health (txs : list Transaction)
    (history : list MetricsSnapshot) (alerts : list Alert) :
  exists fpr,
    system_health (calculateMetrics txs history alerts)
    = determineSystemHealth
        (detection_rate (calculateMetrics txs history alerts)) fpr
        (avg_response_time_ms (calculateMetrics txs history alerts)) alerts
    /\ false_positive_rate (calculateMetrics txs history alerts)
       = Js.max2 0 (Js.min2 1 fpr).
Proof. eexists. split; reflexivity. Qed.

(* ================================================================== *)
(** ** Alerts *)
(* ================================================================== *)

Lemma StronglySorted_weaken {A} (R R' : A -> A -> Prop) (l : list A) :
  (forall a b, R a b -> R' a b) -> StronglySorted R l -> StronglySorted R' l.
Proof.
  intros H. induction 1 as [| a l _ IH Ha]; constructor; [exact IH |].
  eapply Forall_impl; [| exact Ha]. intros b. apply H.
Qed.

Lemma compareAlerts_le (a b : Alert) :
  (compareAlerts a b <=? 0) = true <-> alertBefore a b.
Proof.
  unfold compareAlerts, alertBefore. rewrite Z.leb_le.
  destruct (Z.eqb_spec (severityOrder (al_severity a)
                        - severityOrder (al_severity b)) 0); simpl; lia.
Qed.

Lemma generateAlerts_perm (clk : Clock) (txs : list Transaction)
    (metrics : PartialDashboardMetrics) :
  Permutation (generateAlerts clk txs metrics) (pushedAlerts clk txs metrics).
Proof. apply sort_perm. Qed.

(** Every rule is examined once: the case analysis on the six conditions. *)
Ltac six_rules txs metrics :=
  unfold pushedAlerts, Js.push;
  destruct (Js.gtb (Js.orZero (pm_detection_rate metrics)) (1 # 10));
  destruct (Js.gtb (Js.orZero (pm_false_positive_rate metrics)) (2 # 10));
  destruct (Js.gtb (Js.orZero (pm_avg_response_time_ms metrics)) 3000);
  destruct (find isHighValueFraud txs);
  destruct (find isHighRiskMerchant txs);
  destruct (Nat.leb 5 (length (Js.slice 0%Z (Some 10%Z) txs)));
  cbn [app map alertCondition al_title al_related_transaction_id al_severity].

Lemma pushedAlerts_conditions_nodup (clk : Clock) (txs : list Transaction)
    (metrics : PartialDashboardMetrics) :
  NoDup (map alertCondition (pushedAlerts clk txs metrics)).
Proof.
  six_rules txs metrics;
    repeat (constructor;
            [unfold alertCondition; cbn [In al_title al_related_transaction_id];
             intuition congruence |]);
    constructor.
Qed.

Lemma pushedAlerts_severities (clk : Clock) (txs : list Transaction)
    (metrics : PartialDashboardMetrics) :
  Forall (fun a => al_severity a = SEV_CRITICAL \/ al_severity a = SEV_WARNING)
         (pushedAlerts clk txs metrics).
Proof.
  six_rules txs metrics;
    repeat (constructor;
            [cbn [al_severity];
             repeat match goal with |- context [if ?c then _ else _] =>
                                      destruct c end; auto |]);
    constructor.
Qed.

(** C9. The list [generateAlerts] returns is ordered by severity rank
    (CRITICAL 0, WARNING 1, INFO 2) ascending and, at equal rank, by
    timestamp descending: every alert of the list comes before every later
    one in that order; and no two alerts of the list report the same
    condition for the same transaction. *)
Theorem generateAlerts_sorted_without_duplicates :
  forall (clk : Clock) (txs : list Transaction)
         (metrics : PartialDashboardMetrics),
    let alerts := generateAlerts clk txs metrics in
    severityOrder SEV_CRITICAL = 0
    /\ severityOrder SEV_WARNING = 1
    /\ severityOrder SEV_INFO = 2
    /\ StronglySorted alertBefore alerts
    /\ NoDup (map alertCondition alerts).
Proof.
  intros clk txs metrics alerts. subst alerts.
  repeat (split; [reflexivity |]). split.
  - unfold generateAlerts.
    apply StronglySorted_weaken
      with (R := fun a b => (compareAlerts a b <=? 0) = true).
    + intros a b. apply compareAlerts_le.
    + apply sort_sorted.
      * intros a b. rewrite !compareAlerts_le. unfold alertBefore. lia.
      * intros a b c. rewrite !compareAlerts_le. unfold alertBefore. lia.
  - eapply Permutation_NoDup.
    + apply Permutation_map. symmetry. apply generateAlerts_perm.
    + apply pushedAlerts_conditions_nodup.
Qed.

(** C10. Every alert [generateAlerts] returns is of severity CRITICAL or
    WARNING: none of the six rules emits INFO. *)
Theorem generateAlerts_never_info :
  forall (clk : Clock) (txs : list Transaction)
         (metrics : PartialDashboardMetrics),
    Forall (fun a => al_severity a = SEV_CRITICAL \/ al_severity a = SEV_WARNING)
           (generateAlerts clk txs metrics)
    /\ Forall (fun a => al_severity a <> SEV_INFO)
              (generateAlerts clk txs metrics).
Proof.
  intros clk txs metrics.
  assert (H : Forall (fun a => al_severity a = SEV_CRITICAL
                               \/ al_severity a = SEV_WARNING)
                     (generateAlerts clk txs metrics)).
  { eapply Permutation_Forall.
    - symmetry. apply generateAlerts_perm.
    - apply pushedAlerts_severities. }
  split; [exact H |].
  eapply Forall_impl; [| exact H].
  intros a [E | E]; rewrite E; discriminate.
Qed.

(* ================================================================== *)
(** ** The transaction list *)
(* ================================================================== *)

(** The pipeline keeps the 50 most recent transactions, newest first. *)
Lemma pipelineTick_keeps_newest (newTx : Transaction) (responseTime : Q)
    (clock : Z) (st : AppState) :
  isPaused st = false ->
  transactions (pipelineTick newTx responseTime clock st)
  = firstn transactionCap (newTx :: transactions st).
Proof.
  intros H. unfold pipelineTick. rewrite H. cbn [transactions].
  apply (slice_first_n 50).
Qed.

Lemma pipelineTick_within_cap (newTx : Transaction) (responseTime : Q)
    (clock : Z) (st : AppState) :
  (length (transactions st) <= transactionCap)%nat ->
  (length (transactions (pipelineTick newTx responseTime clock st))
   <= transactionCap)%nat.
Proof.
  intros H. destruct (isPaused st) eqn:E.
  - unfold pipelineTick. now rewrite E.
  - rewrite pipelineTick_keeps_newest by exact E.
    rewrite length_firstn. lia.
Qed.

Lemma triggerFraudEvent_length (newTx : Transaction) (st : AppState) :
  length (transactions (triggerFraudEvent newTx st))
  = S (length (transactions st)).
Proof. reflexivity. Qed.

(** Without an injected fraud event the list stays within the cap. *)
Lemma run_within_cap (evs : list Event) :
  Forall notInjected evs ->
  forall st, (length (transactions st) <= transactionCap)%nat ->
             (length (transactions (run st evs)) <= transactionCap)%nat.
Proof.
  induction 1 as [| ev evs Hev _ IH]; intros st Hst; [exact Hst |].
  apply IH. destruct ev; cbn [step notInjected] in *.
  - now apply pipelineTick_within_cap.
  - contradiction.
  - exact Hst.
  - cbn [handleUpdateStatus transactions]. now rewrite length_map.
  - exact Hst.
Qed.

(** The snapshot log stays within its capacity, whatever happens. *)
Lemma run_snapshot_log_within_cap (evs : list Event) :
  forall st, (length (metricsHistoryRef st) <= 1000)%nat ->
             (length (metricsHistoryRef (run st evs)) <= 1000)%nat.
Proof.
  induction evs as [| ev evs IH]; intros st Hst; [exact Hst |].
  apply IH. destruct ev; cbn [step]; try exact Hst.
  unfold pipelineTick. destruct (isPaused st); [exact Hst |].
  cbn [metricsHistoryRef].
  match goal with
  | |- context [recordMetricsSnapshot ?c ?h ?r ?f defaultMaxHistorySize] =>
      pose proof (snapshot_log_length c h r f) as L
  end.
  lia.
Qed.

(** C5. After fifty firings of the pipeline interval the list holds 50
    transactions, and [triggerFraudEvent] then prepends one more without
    evicting any: the list holds 51, one more than the cap. *)
Theorem triggerFraudEvent_exceeds_cap :
  length (transactions (run (initialState [])
                            (removelast fiftyTicksThenTrigger)))
  = transactionCap
  /\ length (transactions (run (initialState []) fiftyTicksThenTrigger))
     = S transactionCap.
Proof. split; vm_compute; reflexivity. Qed.

(* ================================================================== *)
(** ** Policy compliance *)
(* ================================================================== *)

Lemma includes_In (arr : list string) (x : string) :
  Js.includes arr x = true <-> In x arr.
Proof.
  unfold Js.includes, Js.streq. rewrite existsb_exists. split.
  - intros (y & Hy & E). apply String.eqb_eq in E. now subst.
  - intros H. exists x. split; [exact H | apply String.eqb_refl].
Qed.

(** C6. For a customer whose policy is found, [checkPolicyCompliance]
    examines each of its four rules whatever the others give: the
    daily-limit violation is reported exactly when the amount is above the
    daily limit, the blocked-country violation exactly when the country is in
    the blocked list, the not-allowed violation exactly when the allowed list
    is not empty and lacks the country, the KYC violation exactly when the
    compliance status is FAILED_KYC; nothing else is reported; and
    [compliant] is true exactly when no violation is reported.  With a
    daily limit of 0 and an amount of 1 the result is not compliant and
    reports the daily-limit violation. *)
Theorem checkPolicyCompliance_independent_rules :
  forall (policies : list CustomerPolicy) (userId : string)
         (policy : CustomerPolicy) (amount : Q) (country : string),
    getCustomerPolicyIn policies userId = Some policy ->
    let r := checkPolicyComplianceIn policies userId amount country in
    (In (ExceedsDailyLimit (cp_daily_limit policy)) (violations r)
     <-> (cp_daily_limit policy < amount)%Q)
    /\ (In (BlockedCountry country) (violations r)
        <-> In country (cp_blocked_countries policy))
    /\ (In (CountryNotAllowed country) (violations r)
        <-> cp_allowed_countries policy <> []
            /\ ~ In country (cp_allowed_countries policy))
    /\ (In FailedKYC (violations r)
        <-> cp_compliance_status policy = "FAILED_KYC"%string)
    /\ (forall v, In v (violations r) ->
                  v = ExceedsDailyLimit (cp_daily_limit policy)
                  \/ v = BlockedCountry country
                  \/ v = CountryNotAllowed country
                  \/ v = FailedKYC)
    /\ NoDup (violations r)
    /\ (compliant r = true <-> violations r = [])
    /\ ((cp_daily_limit policy == 0)%Q -> (amount == 1)%Q ->
        compliant r = false
        /\ In (ExceedsDailyLimit (cp_daily_limit policy)) (violations r)).
Proof.
  intros policies userId policy amount country Hfind r. subst r.
  unfold checkPolicyComplianceIn. rewrite Hfind.
  pose proof (gtb_gt amount (cp_daily_limit policy)) as R1.
  pose proof (includes_In (cp_blocked_countries policy) country) as R2.
  pose proof (includes_In (cp_allowed_countries policy) country) as R3.
  assert (R4 : (0 <? length (cp_allowed_countries policy))%nat = true
               <-> cp_allowed_countries policy <> []).
  { destruct (cp_allowed_countries policy); simpl; split;
      congruence || discriminate || reflexivity. }
  assert (R5 : Js.streq (cp_compliance_status policy) "FAILED_KYC" = true
               <-> cp_compliance_status policy = "FAILED_KYC"%string)
    by apply String.eqb_eq.
  assert (L : (cp_daily_limit policy == 0)%Q -> (amount == 1)%Q ->
              Js.gtb amount (cp_daily_limit policy) = true).
  { intros H0 H1. apply R1. lra. }
  destruct (Js.gtb amount (cp_daily_limit policy));
    destruct (Js.includes (cp_blocked_countries policy) country);
    destruct (0 <? length (cp_allowed_countries policy))%nat;
    destruct (Js.includes (cp_allowed_countries policy) country);
    destruct (Js.streq (cp_compliance_status policy) "FAILED_KYC");
    cbn [andb negb Js.push app length Nat.eqb compliant violations In];
    (repeat apply conj;
     lazymatch goal with
     | |- NoDup _ =>
         repeat (apply NoDup_cons; [cbn [In]; intuition discriminate |]);
         apply NoDup_nil
     | |- _ => cbn [In]; intuition (congruence || discriminate || auto)
     end).
Qed.

(* ================================================================== *)
(** ** Knowledge base *)
(* ================================================================== *)

Lemma countId_app (id : string) (kb kb' : list FraudCase) :
  countId id (kb ++ kb') = (countId id kb + countId id kb')%nat.
Proof. unfold countId. now rewrite filter_app, length_app. Qed.

Lemma countId_zero (id : string) (kb : list FraudCase) :
  countId id kb = 0%nat <-> (forall c, In c kb -> fc_id c <> id).
Proof.
  unfold countId, Js.streq. induction kb as [| c kb IH]; simpl.
  - split; [intros _ c [] | reflexivity].
  - destruct (String.eqb_spec (fc_id c) id) as [E | E]; simpl.
    + split; [discriminate |]. intros H. exfalso. apply (H c); auto.
    + rewrite IH. split.
      * intros H c' [<- | Hc]; auto.
      * intros H c' Hc. apply H. now right.
Qed.

Lemma countId_newCase (tx : Transaction) :
  countId (fc_id (newCase tx)) [newCase tx] = 1%nat.
Proof.
  unfold countId. cbn [filter]. unfold Js.streq.
  now rewrite String.eqb_refl.
Qed.

(** C7, as amended.  [addCase] returns the old knowledge base, unchanged,
    followed by one new case: the length grows by one, the id of the new
    case is CASE_ followed by the transaction id, its narrative and merchant
    are the transaction's, its type is the analyst-feedback tag and its
    vector id is pending; and the new id occurs once in the result exactly
    when no case of the old knowledge base already has it. *)
Theorem addCase_appends_one_case :
  forall (kb : list FraudCase) (tx : Transaction) (notes : string),
    let kb' := addCase kb tx notes in
    let c := newCase tx in
    kb' = kb ++ [c]
    /\ firstn (length kb) kb' = kb
    /\ (forall i, (i < length kb)%nat -> nth_error kb' i = nth_error kb i)
    /\ length kb' = S (length kb)
    /\ fc_id c = ("CASE_" ++ tx_id tx)%string
    /\ fc_narrative c = tx_narrative tx
    /\ fc_merchant c = tx_merchant tx
    /\ fc_type c = "Confirmed Fraud (Analyst Feedback)"%string
    /\ fc_vectorId c = Some "pending_vectorization"%string
    /\ (countId (fc_id c) kb' = 1%nat
        <-> forall old, In old kb -> fc_id old <> ("CASE_" ++ tx_id tx)%string).
Proof.
  intros kb tx notes kb' c. subst kb' c. unfold addCase.
  repeat split; try reflexivity.
  - rewrite firstn_app, Nat.sub_diag, firstn_all. simpl. apply app_nil_r.
  - intros i Hi. now apply nth_error_app1.
  - rewrite length_app. simpl. lia.
  - intros H. change ("CASE_" ++ tx_id tx)%string with (fc_id (newCase tx)).
    apply countId_zero. rewrite countId_app, countId_newCase in H. lia.
  - intros H. change ("CASE_" ++ tx_id tx)%string with (fc_id (newCase tx)) in H.
    apply countId_zero in H. rewrite countId_app, countId_newCase, H.
    reflexivity.
Qed.

(** C7, as the specification states it, fails when the transaction is added
    a second time: the knowledge base then holds two cases with the id of
    the new case. *)
Lemma addCase_id_not_unique :
  ~ addCaseAsSpecified
      (addCase [] (sampleTx "TX9" CRITICAL BLOCKED) "confirmed")
      (sampleTx "TX9" CRITICAL BLOCKED) "confirmed again".
Proof.
  intros (c & E & _ & _ & _ & _ & U).
  unfold addCase in E. apply app_inj_tail in E as [_ <-].
  vm_compute in U. discriminate.
Qed.

(* ================================================================== *)
(** ** The risk scorer *)
(* ================================================================== *)

Lemma criticalRow_reflect (z s : Q) :
  Js.gtb (Qabs z) 3 || Qle_bool (85 # 100) s = true <-> criticalRow z s.
Proof.
  unfold criticalRow. now rewrite orb_true_iff, gtb_gt, Qle_bool_iff.
Qed.

Lemma mediumRow_reflect (z s : Q) :
  Js.gtb (Qabs z) (15 # 10) || Qle_bool (5 # 10) s = true <-> mediumRow z s.
Proof.
  unfold mediumRow. now rewrite orb_true_iff, gtb_gt, Qle_bool_iff.
Qed.

Lemma riskLevelOf_table (z s : Q) :
  (criticalRow z s -> Scorer.riskLevelOf z s = CRITICAL)
  /\ (~ criticalRow z s -> mediumRow z s -> Scorer.riskLevelOf z s = MEDIUM)
  /\ (~ criticalRow z s -> ~ mediumRow z s -> Scorer.riskLevelOf z s = LOW).
Proof.
  unfold Scorer.riskLevelOf.
  pose proof (criticalRow_reflect z s) as C.
  pose proof (mediumRow_reflect z s) as M.
  destruct (Js.gtb (Qabs z) 3 || Qle_bool (85 # 100) s);
    destruct (Js.gtb (Qabs z) (15 # 10) || Qle_bool (5 # 10) s);
    intuition discriminate.
Qed.

(** The scorer fails exactly on a profile with an empty history. *)
Lemma score_total (epsilon spreadFloor : Q) (profile : UserProfile)
    (kb : list FraudCase) (forcedType : option Scorer.ForcedType)
    (rnd : Scorer.RandomSource) :
  (up_history profile = [] ->
   Scorer.score epsilon spreadFloor profile kb forcedType rnd
   = inl Scorer.InvalidProfile)
  /\ (up_history profile <> [] ->
      exists tx, Scorer.score epsilon spreadFloor profile kb forcedType rnd
                 = inr tx).
Proof.
  unfold Scorer.score. destruct (up_history profile).
  - split; [reflexivity | congruence].
  - split; [discriminate | intros _; eexists; reflexivity].
Qed.

(** C1. The risk level of every transaction the scorer returns is the one
    the decision table gives for the z-score and the signature match score
    of that transaction: CRITICAL if |zScore| > 3 or the signature score is
    at least 0.85, else MEDIUM if |zScore| > 1.5 or the signature score is
    at least 0.5, else LOW; and its status is PENDING. *)
Theorem score_riskLevel_matches_table :
  forall (epsilon spreadFloor : Q) (profile : UserProfile)
         (kb : list FraudCase) (forcedType : option Scorer.ForcedType)
         (rnd : Scorer.RandomSource) (tx : Transaction),
    Scorer.score epsilon spreadFloor profile kb forcedType rnd = inr tx ->
    let z := tx_zScore tx in
    let s := tx_signatureMatchScore tx in
    (criticalRow z s -> tx_riskLevel tx = CRITICAL)
    /\ (~ criticalRow z s -> mediumRow z s -> tx_riskLevel tx = MEDIUM)
    /\ (~ criticalRow z s -> ~ mediumRow z s -> tx_riskLevel tx = LOW)
    /\ tx_status tx = PENDING.
Proof.
  intros epsilon spreadFloor profile kb forcedType rnd tx H z s.
  subst z s. unfold Scorer.score in H.
  destruct (up_history profile); [discriminate |].
  injection H as <-. cbn [tx_riskLevel tx_zScore tx_signatureMatchScore tx_status].
  match goal with
  | |- context [Scorer.riskLevelOf ?z ?s] =>
      pose proof (riskLevelOf_table z s) as (T1 & T2 & T3)
  end.
  repeat split; assumption.
Qed.

(** The scorer on the sample profile, for a forced signature: it returns a
    transaction, which is CRITICAL and PENDING. *)
Lemma score_riskLevel_matches_table_witness :
  exists tx,
    Scorer.score (1 # 100) 1 sampleProfile sampleKnowledgeBase
                 (Some Scorer.SIGNATURE) sampleDraws = inr tx
    /\ (criticalRow (tx_zScore tx) (tx_signatureMatchScore tx) ->
        tx_riskLevel tx = CRITICAL)
    /\ tx_status tx = PENDING.
Proof.
  eexists. split; [reflexivity |].
  pose proof (@score_riskLevel_matches_table (1 # 100) 1 sampleProfile
                sampleKnowledgeBase (Some Scorer.SIGNATURE) sampleDraws _
                eq_refl) as (T1 & _ & _ & T4).
  split; [exact T1 | exact T4].
Defined.

(** The suspended customer of the table: daily limit 0, amount 1. *)
Lemma checkPolicyCompliance_independent_rules_witness :
  getCustomerPolicy "USER_SUSPENDED_001" = Some suspendedCustomerPolicy
  /\ compliant (checkPolicyCompliance "USER_SUSPENDED_001" 1 "US") = false
  /\ In (ExceedsDailyLimit 0)
        (violations (checkPolicyCompliance "USER_SUSPENDED_001" 1 "US")).
Proof.
  split; [reflexivity |].
  refine (match @checkPolicyCompliance_independent_rules customerPolicies
                  "USER_SUSPENDED_001" suspendedCustomerPolicy
                  1%Q "US" eq_refl
          with
          | conj _ (conj _ (conj _ (conj _ (conj _ (conj _ (conj _ H)))))) =>
              H _ _
          end); reflexivity.
Defined.

(* ================================================================== *)
(** ** More on the metrics: latencies *)
(* ================================================================== *)

Lemma max2_cases (a b : Q) :
  (Js.max2 a b = a /\ (b <= a)%Q) \/ (Js.max2 a b = b /\ (a < b)%Q).
Proof.
  unfold Js.max2. destruct (Js.ltb a b) eqn:E.
  - right. split; [reflexivity | now apply ltb_lt].
  - left. split; [reflexivity |].
    destruct (Qlt_le_dec a b) as [H | H]; [| exact H].
    apply ltb_lt in H. congruence.
Qed.

Lemma maxOf_spec (xs : list Q) :
  forall x, (x <= Js.maxOf x xs)%Q
            /\ Forall (fun y => (y <= Js.maxOf x xs)%Q) xs
            /\ In (Js.maxOf x xs) (x :: xs).
Proof.
  unfold Js.maxOf. induction xs as [| y xs IH]; intros x; cbn [fold_left].
  - repeat split; [lra | constructor | now left].
  - destruct (IH (Js.max2 x y)) as (H1 & H2 & H3).
    destruct (max2_cases x y) as [[E Hle] | [E Hlt]]; rewrite E in *.
    + repeat split; [exact H1 | constructor; [lra | exact H2] |].
      destruct H3 as [H3 | H3]; [left; exact H3 | right; now right].
    + repeat split; [lra | constructor; [exact H1 | exact H2] |].
      destruct H3 as [H3 | H3]; [right; left; exact H3 | right; now right].
Qed.

(** X1. The maximal response time of [calculateMetrics] is 0 for an empty
    snapshot log; otherwise it is the response time of one of the snapshots
    and no snapshot has a larger one. *)
Theorem max_response_time_is_maximum :
  forall (txs : list Transaction) (history : list MetricsSnapshot)
         (alerts : list Alert),
    let m := calculateMetrics txs history alerts in
    (history = [] -> max_response_time_ms m = 0%Q)
    /\ (forall s, In s history ->
                  (ms_responseTime s <= max_response_time_ms m)%Q)
    /\ (history <> [] ->
        exists s, In s history
                  /\ max_response_time_ms m = ms_responseTime s).
Proof.
  intros txs history alerts m. subst m.
  change (max_response_time_ms (calculateMetrics txs history alerts))
    with (match map ms_responseTime history with
          | [] => 0%Q
          | r :: rs => Js.maxOf r rs
          end).
  destruct history as [| s0 history]; cbn [map].
  - repeat split; [intros s [] | congruence].
  - destruct (maxOf_spec (map ms_responseTime history) (ms_responseTime s0))
      as (H1 & H2 & H3).
    split; [discriminate |]. split.
    + intros s [<- | Hs]; [exact H1 |].
      rewrite Forall_forall in H2. apply H2. now apply in_map.
    + intros _. destruct H3 as [H3 | H3].
      * exists s0. split; [now left | now symmetry].
      * apply in_map_iff in H3 as (s & E & Hs).
        exists s. split; [now right | now symmetry].
Qed.

Lemma sorted_nth_le (s : list Q) :
  StronglySorted Qle s ->
  forall i j x y, (i <= j)%nat -> nth_error s i = Some x ->
                  nth_error s j = Some y -> (x <= y)%Q.
Proof.
  induction 1 as [| a s Hs IH Ha]; intros i j x y Hij Hi Hj.
  - destruct i; discriminate.
  - destruct i as [| i], j as [| j]; cbn [nth_error] in *.
    + injection Hi as <-. injection Hj as <-. lra.
    + injection Hi as <-. rewrite Forall_forall in Ha.
      apply Ha. eapply nth_error_In; eauto.
    + lia.
    + eapply IH; [| eassumption | eassumption]. lia.
Qed.

Lemma round_le (x y : Q) : (x <= y)%Q -> (Js.round x <= Js.round y)%Q.
Proof.
  intros H. unfold Js.round. rewrite <- Zle_Qle.
  apply Qfloor_resp_le. lra.
Qed.

(** The element [calculatePercentile] rounds, in the array it sorted. *)
Lemma calculatePercentile_element (values : list Q) (p : Q) :
  values <> [] -> (0 < p)%Q -> (p <= 1)%Q ->
  exists x,
    nth_error (Js.sort (fun a b => Qle_bool (a - b) 0) values)
              (Z.to_nat (Qceiling (inject_Z (Z.of_nat (length values)) * p) - 1))
    = Some x
    /\ calculatePercentile values p = Some (Js.round x).
Proof.
  intros Hne Hp0 Hp1.
  assert (Hn : (0 < length values)%nat)
    by (destruct values; [congruence | simpl; lia]).
  unfold calculatePercentile.
  destruct (Nat.eqb_spec (length values) 0) as [E | _]; [lia |].
  set (sorted := Js.sort (fun a b => Qle_bool (a - b) 0) values).
  assert (Hlen : length sorted = length values) by apply sort_length.
  unfold Js.len, Js.ceil. rewrite Hlen.
  pose proof (rank_in_range Hn Hp0 Hp1) as [R1 R2].
  set (c := Qceiling (inject_Z (Z.of_nat (length values)) * p)) in *.
  rewrite Z.max_r by lia.
  destruct (nth_error sorted (Z.to_nat (c - 1))) as [x |] eqn:Nx.
  - exists x. split; reflexivity.
  - apply nth_error_None in Nx. lia.
Qed.

(** X2. The latencies of [calculateMetrics] are ordered: p95 and p99 are
    numbers, p95 is at most p99, and p99 is at most the maximal response
    time rounded to the nearest integer. *)
Theorem percentiles_ordered :
  forall (txs : list Transaction) (history : list MetricsSnapshot)
         (alerts : list Alert),
    let m := calculateMetrics txs history alerts in
    exists p95 p99,
      p95_latency_ms m = Some p95
      /\ p99_latency_ms m = Some p99
      /\ (p95 <= p99)%Q
      /\ (p99 <= Js.round (max_response_time_ms m))%Q.
Proof.
  intros txs history alerts m.
  destruct history as [| s0 history].
  - exists 0%Q, 0%Q. repeat split; vm_compute; discriminate.
  - subst m.
    change (p95_latency_ms (calculateMetrics txs (s0 :: history) alerts))
      with (calculatePercentile (map ms_responseTime (s0 :: history)) (95 # 100)).
    change (p99_latency_ms (calculateMetrics txs (s0 :: history) alerts))
      with (calculatePercentile (map ms_responseTime (s0 :: history)) (99 # 100)).
    change (max_response_time_ms (calculateMetrics txs (s0 :: history) alerts))
      with (Js.maxOf (ms_responseTime s0) (map ms_responseTime history)).
    set (values := map ms_responseTime (s0 :: history)).
    assert (Hne : values <> []) by discriminate.
    destruct (@calculatePercentile_element values (95 # 100) Hne)
      as (x & Nx & Ex); [reflexivity | discriminate |].
    destruct (@calculatePercentile_element values (99 # 100) Hne)
      as (y & Ny & Ey); [reflexivity | discriminate |].
    exists (Js.round x), (Js.round y).
    split; [exact Ex |]. split; [exact Ey |]. split.
    + apply round_le.
      eapply sorted_nth_le; [apply numeric_sort_sorted | | exact Nx | exact Ny].
      assert (H : (Qceiling (inject_Z (Z.of_nat (length values)) * (95 # 100))
                   <= Qceiling (inject_Z (Z.of_nat (length values)) * (99 # 100)))%Z).
      { apply Qceiling_resp_le.
        assert (0 <= inject_Z (Z.of_nat (length values)))%Q
          by (change 0%Q with (inject_Z 0); rewrite <- Zle_Qle; lia).
        nra. }
      lia.
    + apply round_le.
      assert (Hy : In y values).
      { eapply Permutation_in; [apply sort_perm |].
        eapply nth_error_In; exact Ny. }
      destruct (maxOf_spec (map ms_responseTime history) (ms_responseTime s0))
        as (H1 & H2 & _).
      destruct Hy as [<- | Hy]; [exact H1 |].
      rewrite Forall_forall in H2. now apply H2.
Qed.

(* ================================================================== *)
(** ** More on the metrics: rates *)
(* ================================================================== *)

Lemma filter_length_le {A} (f : A -> bool) (l : list A) :
  (length (filter f l) <= length l)%nat.
Proof.
  induction l as [| x l IH]; simpl; [lia |].
  destruct (f x); simpl; lia.
Qed.

Lemma len_nonneg {A} (l : list A) : (0 <= Js.len l)%Q.
Proof.
  unfold Js.len. change 0%Q with (inject_Z 0). rewrite <- Zle_Qle. lia.
Qed.

Lemma len_le {A B} (l : list A) (l' : list B) :
  (length l <= length l')%nat -> (Js.len l <= Js.len l')%Q.
Proof. intros H. unfold Js.len. rewrite <- Zle_Qle. lia. Qed.

Lemma ratio_in_unit (a b : Q) :
  (0 <= a)%Q -> (a <= b)%Q -> (0 < b)%Q -> (0 <= a / b <= 1)%Q.
Proof.
  intros Ha Hab Hb. split.
  - apply Qle_shift_div_l; [exact Hb | lra].
  - apply Qle_shift_div_r; [exact Hb | lra].
Qed.

Lemma clamp_in_unit (x : Q) : (0 <= Js.max2 0 (Js.min2 1 x) <= 1)%Q.
Proof.
  destruct (max2_cases 0 (Js.min2 1 x)) as [[E H] | [E H]]; rewrite E.
  - lra.
  - split; [lra |]. unfold Js.min2.
    destruct (Js.ltb x 1) eqn:L; [apply ltb_lt in L |]; lra.
Qed.

(** X3. Every rate of [calculateMetrics] (detection rate, accuracy,
    precision, recall, false-positive rate, false-negative rate) lies
    between 0 and 1. *)
Theorem rates_within_unit_interval :
  forall (txs : list Transaction) (history : list MetricsSnapshot)
         (alerts : list Alert),
    let m := calculateMetrics txs history alerts in
    (0 <= detection_rate m <= 1)%Q
    /\ (0 <= model_accuracy m <= 1)%Q
    /\ (0 <= model_precision m <= 1)%Q
    /\ (0 <= model_recall m <= 1)%Q
    /\ (0 <= false_positive_rate m <= 1)%Q
    /\ (0 <= false_negative_rate m <= 1)%Q.
Proof.
  intros txs history alerts m. subst m.
  split; [| repeat split; apply clamp_in_unit].
  rewrite detection_rate_eq.
  destruct (Js.gtb (Js.len txs) 0) eqn:E; [| lra].
  apply gtb_gt in E.
  apply ratio_in_unit; [apply len_nonneg | | exact E].
  apply len_le, filter_length_le.
Qed.

(** A critical transaction that was allowed is counted once as a false
    positive and once as a false negative. *)
Lemma false_positives_are_false_negatives (txs : list Transaction) :
  filter (fun t => TxStatus_eqb (tx_status t) ALLOWED) (filter isFraudCase txs)
  = filter (fun t => RiskLevel_eqb (tx_riskLevel t) CRITICAL)
           (filter (fun t => TxStatus_eqb (tx_status t) ALLOWED) txs).
Proof.
  induction txs as [| t txs IH]; [reflexivity |].
  destruct t as [? ? ? ? ? ? ? ? ? ? ? ? risk status].
  destruct risk, status; cbn; rewrite ?IH; reflexivity.
Qed.

(** X4. The transactions [calculateMetrics] counts as false positives
    (critical or blocked, and allowed) are the ones it counts as false
    negatives (allowed, and critical); so the precision and the recall it
    reports are always equal. *)
Theorem precision_equals_recall :
  forall (txs : list Transaction) (history : list MetricsSnapshot)
         (alerts : list Alert),
    let m := calculateMetrics txs history alerts in
    (forall t, In t txs ->
       (isFraudCase t = true /\ tx_status t = ALLOWED
        <-> tx_status t = ALLOWED /\ tx_riskLevel t = CRITICAL))
    /\ model_precision m = model_recall m.
Proof.
  intros txs history alerts m. subst m. split.
  - intros t _. rewrite isFraudCase_iff. split.
    + intros [[H | H] E]; [auto | congruence].
    + intros [E H]; auto.
  - unfold calculateMetrics. cbn [model_precision model_recall].
    rewrite <- (false_positives_are_false_negatives txs). reflexivity.
Qed.

(** X5. With no transaction, [calculateMetrics] reports all counts and
    rates as 0, whatever the snapshot log and the alerts; with no snapshot
    and no alert either, the latencies and the throughput are 0 and the
    health is NORMAL. *)
Theorem calculateMetrics_without_transactions :
  forall (history : list MetricsSnapshot) (alerts : list Alert),
    let m := calculateMetrics [] history alerts in
    transactions_today m = 0%Q
    /\ fraud_detected m = 0%Q
    /\ detection_rate m = 0%Q
    /\ legitimate_approved m = 0%Q
    /\ pending_review m = 0%Q
    /\ model_accuracy m = 0%Q
    /\ model_precision m = 0%Q
    /\ model_recall m = 0%Q
    /\ false_positive_rate m = 0%Q
    /\ false_negative_rate m = 0%Q
    /\ active_alerts m = alerts
    /\ (history = [] -> alerts = [] ->
        avg_response_time_ms m = 0%Q
        /\ max_response_time_ms m = 0%Q
        /\ p95_latency_ms m = Some 0%Q
        /\ p99_latency_ms m = Some 0%Q
        /\ throughput_txn_per_sec m = 0%Q
        /\ system_health m = H_NORMAL).
Proof.
  intros history alerts m. subst m.
  repeat (split; [reflexivity |]).
  intros -> ->. repeat split.
Qed.

(* ================================================================== *)
(** ** More on the metrics: throughput and the capacity of the log *)
(* ================================================================== *)

Lemma timestamp_sort_sorted (history : list MetricsSnapshot) :
  StronglySorted (fun a b => ms_timestamp a <= ms_timestamp b)
    (Js.sort (fun a b => ms_timestamp a - ms_timestamp b <=? 0) history).
Proof.
  apply StronglySorted_weaken
    with (R := fun a b => (ms_timestamp a - ms_timestamp b <=? 0) = true).
  - intros a b H. apply Z.leb_le in H. lia.
  - apply sort_sorted.
    + intros a b. rewrite !Z.leb_le. lia.
    + intros a b c. rewrite !Z.leb_le. lia.
Qed.

Lemma sorted_last_is_greatest (s : list MetricsSnapshot) :
  StronglySorted (fun a b => ms_timestamp a <= ms_timestamp b) s ->
  forall d y, In y s -> ms_timestamp y <= ms_timestamp (last s d).
Proof.
  induction 1 as [| a s Hs IH Ha]; intros d y Hy; [destruct Hy |].
  destruct s as [| b s].
  - destruct Hy as [<- | []]. simpl. lia.
  - change (last (a :: b :: s) d) with (last (b :: s) d).
    destruct Hy as [<- | Hy].
    + rewrite Forall_forall in Ha.
      transitivity (ms_timestamp b); [apply Ha; now left |].
      apply IH. now left.
    + now apply IH.
Qed.

Lemma last_In {A} (l : list A) (x d : A) : In (last (x :: l) d) (x :: l).
Proof.
  revert x. induction l as [| y l IH]; intros x.
  - now left.
  - change (last (x :: y :: l) d) with (last (y :: l) d). right. apply IH.
Qed.

(** The first and the last element of two sorted arrangements of the same
    snapshots carry the same timestamps. *)
Lemma sorted_ends_agree (s s' : list MetricsSnapshot)
    (a a' : MetricsSnapshot) (l l' : list MetricsSnapshot) :
  s = a :: l -> s' = a' :: l' -> Permutation s s' ->
  StronglySorted (fun a b => ms_timestamp a <= ms_timestamp b) s ->
  StronglySorted (fun a b => ms_timestamp a <= ms_timestamp b) s' ->
  ms_timestamp a = ms_timestamp a'
  /\ ms_timestamp (last s a) = ms_timestamp (last s' a').
Proof.
  intros -> -> P S S'.
  assert (Hhd : forall (x : MetricsSnapshot) r y,
             StronglySorted (fun a b => ms_timestamp a <= ms_timestamp b)
                            (x :: r) ->
             In y (x :: r) -> ms_timestamp x <= ms_timestamp y).
  { intros x r y Hs [<- | Hy]; [lia |].
    apply StronglySorted_inv in Hs as [_ Hx].
    rewrite Forall_forall in Hx. now apply Hx. }
  split.
  - assert (ms_timestamp a <= ms_timestamp a').
    { apply (Hhd a l a' S). eapply Permutation_in; [symmetry; exact P |].
      now left. }
    assert (ms_timestamp a' <= ms_timestamp a).
    { apply (Hhd a' l' a S'). eapply Permutation_in; [exact P |]. now left. }
    lia.
  - assert (ms_timestamp (last (a :: l) a) <= ms_timestamp (last (a' :: l') a')).
    { apply sorted_last_is_greatest; [exact S' |].
      eapply Permutation_in; [exact P |]. apply last_In. }
    assert (ms_timestamp (last (a' :: l') a') <= ms_timestamp (last (a :: l) a)).
    { apply sorted_last_is_greatest; [exact S |].
      eapply Permutation_in; [symmetry; exact P |]. apply last_In. }
    lia.
Qed.

(** X6. The throughput [calculateThroughput] computes does not depend on
    the order of the snapshots in the log. *)
Theorem calculateThroughput_order_independent :
  forall (history history' : list MetricsSnapshot),
    Permutation history history' ->
    calculateThroughput history = calculateThroughput history'.
Proof.
  intros history history' P. unfold calculateThroughput.
  rewrite <- (Permutation_length P).
  destruct (length history <? 2)%nat; [reflexivity |].
  set (leb := fun a b => ms_timestamp a - ms_timestamp b <=? 0).
  assert (Ps : Permutation (Js.sort leb history) (Js.sort leb history')).
  { rewrite !sort_perm. exact P. }
  pose proof (timestamp_sort_sorted history) as S.
  pose proof (timestamp_sort_sorted history') as S'.
  fold leb in S, S'.
  destruct (Js.sort leb history) as [| a l] eqn:E;
    destruct (Js.sort leb history') as [| a' l'] eqn:E'.
  - reflexivity.
  - apply Permutation_length in Ps. discriminate.
  - apply Permutation_length in Ps. discriminate.
  - destruct (@sorted_ends_agree _ _ a a' l l' eq_refl eq_refl Ps S S')
      as [H1 H2].
    rewrite H1, H2. unfold Js.len. rewrite (Permutation_length P).
    reflexivity.
Qed.

(** The three sample snapshots and their reversal. *)
Lemma calculateThroughput_order_independent_witness :
  calculateThroughput threeSnapshots = calculateThroughput (rev threeSnapshots).
Proof.
  apply calculateThroughput_order_independent.
  apply Permutation_rev.
Defined.

Lemma toFixed2_nonneg (x : Q) : (0 <= x)%Q -> (0 <= Js.toFixed2 x)%Q.
Proof.
  intros H. unfold Js.toFixed2.
  apply Qle_shift_div_l; [reflexivity |].
  assert (F : (0 <= Qfloor (x * 100 + (1 # 2)))%Z).
  { change 0%Z with (Qfloor 0). apply Qfloor_resp_le. lra. }
  rewrite Zle_Qle in F. change (inject_Z 0) with 0%Q in F. lra.
Qed.

(** X7. The throughput is never negative; it is 0 for a log of fewer than
    two snapshots, and 0 when all snapshots carry the same timestamp. *)
Theorem calculateThroughput_zero_cases :
  forall (history : list MetricsSnapshot),
    (0 <= calculateThroughput history)%Q
    /\ ((length history < 2)%nat -> calculateThroughput history = 0%Q)
    /\ ((forall a b, In a history -> In b history ->
                     ms_timestamp a = ms_timestamp b) ->
        calculateThroughput history = 0%Q).
Proof.
  intros history. unfold calculateThroughput.
  set (leb := fun a b => ms_timestamp a - ms_timestamp b <=? 0).
  pose proof (timestamp_sort_sorted history) as S. fold leb in S.
  pose proof (sort_perm leb history) as P.
  destruct (Nat.ltb_spec (length history) 2) as [Hlt | Hge].
  - repeat split; intros; lra || reflexivity.
  - destruct (Js.sort leb history) as [| a l] eqn:E.
    + repeat split; intros; lra || reflexivity || lia.
    + set (span := (inject_Z (ms_timestamp (last (a :: l) a) - ms_timestamp a)
                    / 1000)%Q).
      assert (Hspan : (0 <= span)%Q).
      { subst span. apply Qle_shift_div_l; [reflexivity |].
        assert (H : ms_timestamp a <= ms_timestamp (last (a :: l) a)).
        { apply sorted_last_is_greatest; [exact S | now left]. }
        assert (G : (0 <= inject_Z (ms_timestamp (last (a :: l) a)
                                   - ms_timestamp a))%Q).
        { change 0%Q with (inject_Z 0). rewrite <- Zle_Qle. lia. }
        lra. }
      split; [| split].
      * destruct (Qeq_bool span 0) eqn:Z0; [lra |].
        apply toFixed2_nonneg.
        assert (Hpos : (0 < span)%Q).
        { apply Qeq_bool_neq in Z0.
          destruct (Qlt_le_dec 0 span) as [H | H]; [exact H |].
          exfalso. apply Z0. lra. }
        apply Qle_shift_div_l; [exact Hpos |].
        pose proof (len_nonneg history). lra.
      * intros H. lia.
      * intros Hsame.
        assert (Hz : ms_timestamp (last (a :: l) a) = ms_timestamp a).
        { apply Hsame; eapply Permutation_in; try exact P.
          - apply last_In.
          - now left. }
        subst span. rewrite Hz, Z.sub_diag. reflexivity.
Qed.

(** X8. [recordMetricsSnapshot] with a capacity of at least 1 returns the
    last [min (n + 1) capacity] entries of the log extended by the new
    snapshot; with a capacity of 0 it drops nothing, and with a negative
    capacity [-k] it drops the [k] oldest entries. *)
Theorem recordMetricsSnapshot_any_capacity :
  forall (clock : Z) (history : list MetricsSnapshot) (responseTime : Q)
         (isFraud : bool) (maxHistorySize : Z),
    let snapshot := {| ms_timestamp := clock;
                       ms_responseTime := responseTime;
                       ms_isFraud := isFraud |} in
    let result := recordMetricsSnapshot clock history responseTime isFraud
                                        maxHistorySize in
    (1 <= maxHistorySize ->
     result = skipn (length history + 1 - Z.to_nat maxHistorySize)
                    (history ++ [snapshot])
     /\ length result = Nat.min (length history + 1) (Z.to_nat maxHistorySize))
    /\ (maxHistorySize = 0 -> result = history ++ [snapshot])
    /\ (maxHistorySize <= 0 ->
        result = skipn (Z.to_nat (- maxHistorySize)) (history ++ [snapshot])).
Proof.
  intros clock history responseTime isFraud maxHistorySize snapshot result.
  subst result. unfold recordMetricsSnapshot. fold snapshot.
  set (updated := history ++ [snapshot]).
  assert (Hlen : length updated = (length history + 1)%nat)
    by (subst updated; rewrite length_app; reflexivity).
  assert (Neg : maxHistorySize <= 0 ->
                (if Z.of_nat (length updated) >? maxHistorySize
                 then Js.slice (- maxHistorySize) None updated else updated)
                = skipn (Z.to_nat (- maxHistorySize)) updated).
  { intros H.
    destruct (Z.gtb_spec (Z.of_nat (length updated)) maxHistorySize) as [G | G];
      [| lia].
    unfold Js.slice, Js.relIndex.
    destruct (Z.ltb_spec (- maxHistorySize) 0) as [L | L]; [lia |].
    destruct (Z.min_spec (- maxHistorySize) (Z.of_nat (length updated)))
      as [[M1 M2] | [M1 M2]]; rewrite M2.
    - apply firstn_all2. rewrite length_skipn. lia.
    - rewrite Nat2Z.id, skipn_all, firstn_nil.
      symmetry. apply skipn_all2. lia. }
  split; [| split].
  - intros H.
    assert (E : (if Z.of_nat (length updated) >? maxHistorySize
                 then Js.slice (- maxHistorySize) None updated else updated)
                = skipn (length history + 1 - Z.to_nat maxHistorySize) updated).
    { destruct (Z.gtb_spec (Z.of_nat (length updated)) maxHistorySize) as [G | G].
      - pose proof (@slice_last_n _ (Z.to_nat maxHistorySize) updated) as S.
        rewrite Z2Nat.id in S by lia. rewrite S by lia. now rewrite Hlen.
      - replace (length history + 1 - Z.to_nat maxHistorySize)%nat
          with 0%nat by lia. reflexivity. }
    rewrite E. split; [reflexivity |]. rewrite length_skipn. lia.
  - intros ->. rewrite Neg by lia. reflexivity.
  - exact Neg.
Qed.

(* ================================================================== *)
(** ** More on the alerts *)
(* ================================================================== *)

(** The pushes of [generateAlerts], rule by rule. *)
Lemma pushedAlerts_by_rule (clk : Clock) (txs : list Transaction)
    (metrics : PartialDashboardMetrics) :
  pushedAlerts clk txs metrics
  = when (Js.gtb (Js.orZero (pm_detection_rate metrics)) (1 # 10))
         (fraudRateAlert clk metrics)
    ++ when (Js.gtb (Js.orZero (pm_false_positive_rate metrics)) (2 # 10))
            (falsePositiveAlert clk metrics)
    ++ when (Js.gtb (Js.orZero (pm_avg_response_time_ms metrics)) 3000)
            (performanceAlert clk metrics)
    ++ whenSome (find isHighValueFraud txs) (highValueAlert clk)
    ++ whenSome (find isHighRiskMerchant txs) (merchantRiskAlert clk)
    ++ when (Nat.leb 5 (length (Js.slice 0 (Some 10) txs)))
            (velocityAlert clk txs).
Proof.
  unfold pushedAlerts, Js.push, when, whenSome.
  destruct (Js.gtb (Js.orZero (pm_detection_rate metrics)) (1 # 10));
    destruct (Js.gtb (Js.orZero (pm_false_positive_rate metrics)) (2 # 10));
    destruct (Js.gtb (Js.orZero (pm_avg_response_time_ms metrics)) 3000);
    destruct (find isHighValueFraud txs);
    destruct (find isHighRiskMerchant txs);
    destruct (Nat.leb 5 (length (Js.slice 0%Z (Some 10%Z) txs)));
    reflexivity.
Qed.

Lemma when_In {A} (c : bool) (x a : A) : In a (when c x) <-> c = true /\ a = x.
Proof.
  unfold when. destruct c; simpl; intuition congruence.
Qed.

Lemma whenSome_In {A B} (o : option A) (f : A -> B) (b : B) :
  In b (whenSome o f) <-> exists x, o = Some x /\ b = f x.
Proof.
  unfold whenSome. destruct o as [x |]; simpl.
  - split.
    + intros [<- | []]. now exists x.
    + intros (y & E & ->). injection E as <-. now left.
  - split; [intros [] | intros (y & E & _); discriminate].
Qed.

Lemma generateAlerts_In (clk : Clock) (txs : list Transaction)
    (metrics : PartialDashboardMetrics) (a : Alert) :
  In a (generateAlerts clk txs metrics)
  <-> (Js.gtb (Js.orZero (pm_detection_rate metrics)) (1 # 10) = true
       /\ a = fraudRateAlert clk metrics)
      \/ (Js.gtb (Js.orZero (pm_false_positive_rate metrics)) (2 # 10) = true
          /\ a = falsePositiveAlert clk metrics)
      \/ (Js.gtb (Js.orZero (pm_avg_response_time_ms metrics)) 3000 = true
          /\ a = performanceAlert clk metrics)
      \/ (exists t, find isHighValueFraud txs = Some t
                    /\ a = highValueAlert clk t)
      \/ (exists t, find isHighRiskMerchant txs = Some t
                    /\ a = merchantRiskAlert clk t)
      \/ (Nat.leb 5 (length (Js.slice 0 (Some 10) txs)) = true
          /\ a = velocityAlert clk txs).
Proof.
  split.
  - intros H. apply (Permutation_in _ (generateAlerts_perm clk txs metrics)) in H.
    rewrite pushedAlerts_by_rule in H.
    rewrite !in_app_iff, !when_In, !whenSome_In in H. exact H.
  - intros H.
    apply (Permutation_in _ (Permutation_sym (generateAlerts_perm clk txs metrics))).
    rewrite pushedAlerts_by_rule.
    rewrite !in_app_iff, !when_In, !whenSome_In. exact H.
Qed.

Lemma when_length {A} (c : bool) (x : A) : (length (when c x) <= 1)%nat.
Proof. destruct c; simpl; lia. Qed.

Lemma whenSome_length {A B} (o : option A) (f : A -> B) :
  (length (whenSome o f) <= 1)%nat.
Proof. destruct o; simpl; lia. Qed.

Lemma len_not_gt {A} (l : list A) (n : nat) :
  (length l <= n)%nat -> Js.gtb (Js.len l) (inject_Z (Z.of_nat n)) = false.
Proof.
  intros H. destruct (Js.gtb _ _) eqn:E; [| reflexivity].
  apply len_gt in E. lia.
Qed.

(** X9. [generateAlerts] returns at most six alerts, at most three of them
    critical; so the two tests of [determineSystemHealth] that count alerts
    never hold for them, and the health computed with the generated alerts
    is the health computed with no alert. *)
Theorem generated_alerts_do_not_affect_health :
  forall (clk : Clock) (txs : list Transaction)
         (metrics : PartialDashboardMetrics)
         (detectionRate falsePositiveRate avgResponseTime : Q),
    let alerts := generateAlerts clk txs metrics in
    (length alerts <= 6)%nat
    /\ (length (filter (fun a => Severity_eqb (al_severity a) SEV_CRITICAL)
                       alerts) <= 3)%nat
    /\ determineSystemHealth detectionRate falsePositiveRate avgResponseTime
                             alerts
       = determineSystemHealth detectionRate falsePositiveRate avgResponseTime
                               [].
Proof.
  intros clk txs metrics dr fpr avg alerts. subst alerts.
  pose proof (generateAlerts_perm clk txs metrics) as P.
  assert (L : (length (generateAlerts clk txs metrics) <= 6)%nat).
  { rewrite (Permutation_length P), pushedAlerts_by_rule, !length_app.
    pose proof (when_length (Js.gtb (Js.orZero (pm_detection_rate metrics)) (1 # 10))
                            (fraudRateAlert clk metrics)).
    pose proof (when_length (Js.gtb (Js.orZero (pm_false_positive_rate metrics)) (2 # 10))
                            (falsePositiveAlert clk metrics)).
    pose proof (when_length (Js.gtb (Js.orZero (pm_avg_response_time_ms metrics)) 3000)
                            (performanceAlert clk metrics)).
    pose proof (whenSome_length (find isHighValueFraud txs) (highValueAlert clk)).
    pose proof (whenSome_length (find isHighRiskMerchant txs)
                                (merchantRiskAlert clk)).
    pose proof (when_length (Nat.leb 5 (length (Js.slice 0 (Some 10) txs)))
                            (velocityAlert clk txs)).
    lia. }
  assert (C : (length (filter (fun a => Severity_eqb (al_severity a) SEV_CRITICAL)
                              (generateAlerts clk txs metrics)) <= 3)%nat).
  { rewrite (filter_length_perm _ P), pushedAlerts_by_rule.
    unfold when, whenSome, fraudRateAlert, performanceAlert.
    destruct (Js.gtb (Js.orZero (pm_detection_rate metrics)) (1 # 10));
      destruct (Js.gtb (Js.orZero (pm_detection_rate metrics)) (2 # 10));
      destruct (Js.gtb (Js.orZero (pm_false_positive_rate metrics)) (2 # 10));
      destruct (Js.gtb (Js.orZero (pm_avg_response_time_ms metrics)) 3000);
      destruct (Js.gtb (Js.orZero (pm_avg_response_time_ms metrics)) 5000);
      destruct (find isHighValueFraud txs);
      destruct (find isHighRiskMerchant txs);
      destruct (Nat.leb 5 (length (Js.slice 0%Z (Some 10%Z) txs)));
      simpl; lia. }
  split; [exact L |]. split; [exact C |].
  unfold determineSystemHealth.
  change 5%Q with (inject_Z (Z.of_nat 5)).
  change 10%Q with (inject_Z (Z.of_nat 10)).
  rewrite !len_not_gt by (simpl; lia). reflexivity.
Qed.

(* ================================================================== *)
(** ** The rules that look at the transactions *)
(* ================================================================== *)

Lemma prefix_iff (sub s : string) :
  String.prefix sub s = true <-> exists post, s = (sub ++ post)%string.
Proof.
  revert s. induction sub as [| a sub IH]; intros s.
  - split; [intros _; now exists s | intros _; destruct s; reflexivity].
  - destruct s as [| b s]; simpl.
    + split; [discriminate | intros (post & E); discriminate].
    + destruct (Ascii.ascii_dec a b) as [<- | N].
      * rewrite IH. split; intros (post & E); exists post.
        -- now rewrite E.
        -- now injection E.
      * split; [discriminate |]. intros (post & E). injection E as E1 _.
        congruence.
Qed.

Lemma strIncludes_iff (sub s : string) :
  Js.strIncludes sub s = true <-> occursIn sub s.
Proof.
  unfold occursIn. induction s as [| c s IH].
  - cbn [Js.strIncludes]. destruct (String.prefix sub "") eqn:E.
    + apply prefix_iff in E as (post & E).
      split; [intros _; now exists ""%string, post | reflexivity].
    + split; [discriminate |]. intros (pre & post & H).
      destruct pre; [| discriminate]. simpl in H.
      assert (P : String.prefix sub "" = true)
        by (apply prefix_iff; now exists post).
      congruence.
  - cbn [Js.strIncludes]. destruct (String.prefix sub (String c s)) eqn:E.
    + apply prefix_iff in E as (post & E).
      split; [intros _; now exists ""%string, post | reflexivity].
    + rewrite IH. split.
      * intros (pre & post & ->). now exists (String c pre), post.
      * intros (pre & post & H). destruct pre as [| c' pre].
        -- simpl in H.
           assert (P : String.prefix sub (String c s) = true)
             by (apply prefix_iff; now exists post).
           congruence.
        -- injection H as _ ->. now exists pre, post.
Qed.

Lemma isHighValueFraud_iff (t : Transaction) :
  isHighValueFraud t = true <-> highValueCritical t.
Proof.
  unfold isHighValueFraud, highValueCritical.
  now rewrite andb_true_iff, RiskLevel_eqb_eq, gtb_gt.
Qed.

Lemma isHighRiskMerchant_iff (t : Transaction) :
  isHighRiskMerchant t = true <-> riskyMerchantName t.
Proof.
  unfold isHighRiskMerchant, riskyMerchantName.
  rewrite !orb_true_iff, !strIncludes_iff. tauto.
Qed.

Lemma find_first {A} (f : A -> bool) (P : A -> Prop) (l : list A) :
  (forall x, f x = true <-> P x) ->
  (forall t, find f l = Some t <-> firstSuchThat P l t)
  /\ (find f l = None <-> forall x, In x l -> ~ P x).
Proof.
  intros R. unfold firstSuchThat. induction l as [| x l [IH1 IH2]]; cbn [find].
  - split.
    + intros t. split; [discriminate |].
      intros (pre & post & E & _). destruct pre; discriminate.
    + split; [intros _ x [] | reflexivity].
  - destruct (f x) eqn:E.
    + split.
      * intros t. split.
        -- intros [= <-]. exists [], l. repeat split; [constructor | now apply R].
        -- intros (pre & post & H & Hpre & Ht). destruct pre as [| y pre].
           ++ now injection H as ->.
           ++ injection H as -> _. apply Forall_inv in Hpre.
              apply R in E. contradiction.
      * split; [discriminate |]. intros H. exfalso.
        apply (H x); [now left | now apply R].
    + assert (N : ~ P x) by (intros H; apply R in H; congruence).
      split.
      * intros t. rewrite IH1. split.
        -- intros (pre & post & -> & Hpre & Ht).
           exists (x :: pre), post. repeat split; [constructor |]; assumption.
        -- intros (pre & post & H & Hpre & Ht). destruct pre as [| y pre].
           ++ injection H as -> _. contradiction.
           ++ injection H as _ ->. exists pre, post.
              repeat split; [now apply Forall_inv_tail in Hpre | exact Ht].
      * rewrite IH2. split.
        -- intros H y [<- | Hy]; [exact N | now apply H].
        -- intros H y Hy. apply H. now right.
Qed.

Lemma firstSuchThat_In {A} (P : A -> Prop) (l : list A) (t : A) :
  firstSuchThat P l t -> In t l /\ P t.
Proof.
  intros (pre & post & -> & _ & H). split; [| exact H].
  apply in_elt.
Qed.

(** Only the alert of a rule carries the title of that rule. *)
Ltac other_titles :=
  repeat match goal with
         | H : _ \/ _ |- _ => destruct H as [H | H]
         | H : _ /\ _ |- _ => destruct H
         | H : exists _, _ |- _ => destruct H
         end;
  subst; try discriminate.

(** X10. [generateAlerts] returns a high-value fraud alert exactly when
    some transaction is of critical risk with an amount above 10000; the
    alert is critical and refers to the first such transaction of the
    list, with its amount and merchant. *)
Theorem high_value_alert_first_match :
  forall (clk : Clock) (txs : list Transaction)
         (metrics : PartialDashboardMetrics),
    let alerts := generateAlerts clk txs metrics in
    ((exists t, In t txs /\ highValueCritical t)
     <-> exists a, In a alerts /\ al_title a = "High-Value Fraud Detected"%string)
    /\ (forall a, In a alerts ->
                  al_title a = "High-Value Fraud Detected"%string ->
        exists t, firstSuchThat highValueCritical txs t
                  /\ al_related_transaction_id a = Some (tx_id t)
                  /\ al_description a
                     = DescHighValue (tx_amount t) (tx_merchant t)
                  /\ al_severity a = SEV_CRITICAL
                  /\ al_timestamp a = now clk).
Proof.
  intros clk txs metrics alerts. subst alerts.
  destruct (find_first isHighValueFraud highValueCritical txs
                       isHighValueFraud_iff) as [F1 F2].
  assert (Second : forall a, In a (generateAlerts clk txs metrics) ->
            al_title a = "High-Value Fraud Detected"%string ->
            exists t, firstSuchThat highValueCritical txs t
                      /\ al_related_transaction_id a = Some (tx_id t)
                      /\ al_description a
                         = DescHighValue (tx_amount t) (tx_merchant t)
                      /\ al_severity a = SEV_CRITICAL
                      /\ al_timestamp a = now clk).
  { intros a Ha Ht. apply generateAlerts_In in Ha.
    destruct Ha as [H | [H | [H | [H | [H | H]]]]]; other_titles.
    match goal with H : find _ _ = Some ?t |- _ =>
      exists t; apply F1 in H; repeat split; assumption end. }
  split; [| exact Second].
  split.
  - intros (t & Ht & Hq).
    destruct (find isHighValueFraud txs) as [t0 |] eqn:E.
    + exists (highValueAlert clk t0). split; [| reflexivity].
      apply generateAlerts_In. do 3 right. left. now exists t0.
    + exfalso. apply (proj1 F2 eq_refl t Ht Hq).
  - intros (a & Ha & Ht). destruct (Second a Ha Ht) as (t & Hf & _).
    exists t. now apply firstSuchThat_In in Hf.
Qed.

(** X11. [generateAlerts] returns a merchant-risk alert exactly when the
    merchant name of some transaction contains crypto, wire or transfer,
    whatever the case of its ASCII letters; the alert is a warning and
    refers to the first such transaction of the list. *)
Theorem merchant_risk_alert_first_match :
  forall (clk : Clock) (txs : list Transaction)
         (metrics : PartialDashboardMetrics),
    let alerts := generateAlerts clk txs metrics in
    ((exists t, In t txs /\ riskyMerchantName t)
     <-> exists a, In a alerts
                   /\ al_title a = "High-Risk Merchant Activity"%string)
    /\ (forall a, In a alerts ->
                  al_title a = "High-Risk Merchant Activity"%string ->
        exists t, firstSuchThat riskyMerchantName txs t
                  /\ al_related_transaction_id a = Some (tx_id t)
                  /\ al_description a = DescMerchantRisk (tx_merchant t)
                  /\ al_severity a = SEV_WARNING
                  /\ al_timestamp a = now clk - 1200000).
Proof.
  intros clk txs metrics alerts. subst alerts.
  destruct (find_first isHighRiskMerchant riskyMerchantName txs
                       isHighRiskMerchant_iff) as [F1 F2].
  assert (Second : forall a, In a (generateAlerts clk txs metrics) ->
            al_title a = "High-Risk Merchant Activity"%string ->
            exists t, firstSuchThat riskyMerchantName txs t
                      /\ al_related_transaction_id a = Some (tx_id t)
                      /\ al_description a = DescMerchantRisk (tx_merchant t)
                      /\ al_severity a = SEV_WARNING
                      /\ al_timestamp a = now clk - 1200000).
  { intros a Ha Ht. apply generateAlerts_In in Ha.
    destruct Ha as [H | [H | [H | [H | [H | H]]]]]; other_titles.
    match goal with H : find _ _ = Some ?t |- _ =>
      exists t; apply F1 in H; repeat split; assumption end. }
  split; [| exact Second].
  split.
  - intros (t & Ht & Hq).
    destruct (find isHighRiskMerchant txs) as [t0 |] eqn:E.
    + exists (merchantRiskAlert clk t0). split; [| reflexivity].
      apply generateAlerts_In. do 4 right. left. now exists t0.
    + exfalso. apply (proj1 F2 eq_refl t Ht Hq).
  - intros (a & Ha & Ht). destruct (Second a Ha Ht) as (t & Hf & _).
    exists t. now apply firstSuchThat_In in Hf.
Qed.

Lemma slice_first_ten {A} (l : list A) :
  Js.slice 0 (Some 10) l = firstn 10 l.
Proof. exact (slice_first_n 10 l). Qed.

Lemma velocity_test (txs : list Transaction) :
  Nat.leb 5 (length (Js.slice 0 (Some 10) txs)) = true <-> (5 <= length txs)%nat.
Proof.
  rewrite slice_first_ten, length_firstn, Nat.leb_le. lia.
Qed.

(** X12. [generateAlerts] returns a velocity alert exactly when there are
    at least five transactions; the alert is a warning and counts the
    transactions up to ten. *)
Theorem velocity_alert_from_five :
  forall (clk : Clock) (txs : list Transaction)
         (metrics : PartialDashboardMetrics),
    let alerts := generateAlerts clk txs metrics in
    ((5 <= length txs)%nat
     <-> exists a, In a alerts
                   /\ al_title a = "Abnormal Transaction Velocity"%string)
    /\ (forall a, In a alerts ->
                  al_title a = "Abnormal Transaction Velocity"%string ->
        al_description a
        = DescVelocity (inject_Z (Z.of_nat (Nat.min 10 (length txs))))
        /\ al_severity a = SEV_WARNING
        /\ al_related_transaction_id a = None
        /\ al_timestamp a = now clk - 180000).
Proof.
  intros clk txs metrics alerts. subst alerts. split.
  - rewrite <- velocity_test. split.
    + intros H. exists (velocityAlert clk txs). split; [| reflexivity].
      apply generateAlerts_In. do 5 right. now split.
    + intros (a & Ha & Ht). apply generateAlerts_In in Ha.
      destruct Ha as [H | [H | [H | [H | [H | H]]]]]; other_titles.
      assumption.
  - intros a Ha Ht. apply generateAlerts_In in Ha.
    destruct Ha as [H | [H | [H | [H | [H | H]]]]]; other_titles.
    repeat split. cbn [al_description velocityAlert]. unfold Js.len.
    now rewrite slice_first_ten, length_firstn.
Qed.

(** X13. [generateAlerts] returns no alert exactly when no rule applies:
    the detection rate passed in is at most 0.1, the false-positive rate at
    most 0.2, the average response time at most 3000 (an absent value
    counting as 0), no transaction is critical above 10000, no merchant name
    is risky, and there are fewer than five transactions. *)
Theorem no_alert_iff_no_rule_applies :
  forall (clk : Clock) (txs : list Transaction)
         (metrics : PartialDashboardMetrics),
    generateAlerts clk txs metrics = []
    <-> (Js.orZero (pm_detection_rate metrics) <= 1 # 10)%Q
        /\ (Js.orZero (pm_false_positive_rate metrics) <= 2 # 10)%Q
        /\ (Js.orZero (pm_avg_response_time_ms metrics) <= 3000)%Q
        /\ (forall t, In t txs -> ~ highValueCritical t)
        /\ (forall t, In t txs -> ~ riskyMerchantName t)
        /\ (length txs < 5)%nat.
Proof.
  intros clk txs metrics.
  destruct (find_first isHighValueFraud highValueCritical txs
                       isHighValueFraud_iff) as [_ HV].
  destruct (find_first isHighRiskMerchant riskyMerchantName txs
                       isHighRiskMerchant_iff) as [_ MR].
  pose proof (velocity_test txs) as V.
  assert (G : forall x y, Js.gtb x y = false <-> (x <= y)%Q).
  { intros x y. pose proof (gtb_gt x y) as R.
    destruct (Js.gtb x y).
    - split; [discriminate |]. intros H. assert (y < x)%Q by now apply R. lra.
    - split; [intros _ | reflexivity].
      destruct (Qlt_le_dec y x) as [H | H]; [| exact H].
      apply R in H. discriminate. }
  rewrite <- !G, <- HV, <- MR.
  assert (E : generateAlerts clk txs metrics = []
              <-> pushedAlerts clk txs metrics = []).
  { pose proof (generateAlerts_perm clk txs metrics) as P. split; intros H.
    - rewrite H in P. now apply Permutation_nil in P.
    - rewrite H in P. apply Permutation_sym in P.
      now apply Permutation_nil in P. }
  rewrite E, pushedAlerts_by_rule. unfold when, whenSome.
  destruct (Js.gtb (Js.orZero (pm_detection_rate metrics)) (1 # 10));
    destruct (Js.gtb (Js.orZero (pm_false_positive_rate metrics)) (2 # 10));
    destruct (Js.gtb (Js.orZero (pm_avg_response_time_ms metrics)) 3000);
    destruct (find isHighValueFraud txs);
    destruct (find isHighRiskMerchant txs);
    destruct (Nat.leb 5 (length (Js.slice 0%Z (Some 10%Z) txs)));
    cbn [app];
    (split; [intros H; try discriminate H | intros (?&?&?&?&?&?)];
     try discriminate;
     repeat split; try reflexivity;
     try (destruct (Nat.lt_ge_cases (length txs) 5) as [L | L];
          [exact L | apply V in L; discriminate]);
     try (exfalso; assert (5 <= length txs)%nat by (now apply V); lia)).
Qed.

(* ================================================================== *)
(** ** The hourly trend *)
(* ================================================================== *)

Lemma replaceAt_length {A} (i : nat) (x : A) (l : list A) :
  (i < length l)%nat -> length (replaceAt i x l) = length l.
Proof.
  intros H. unfold replaceAt.
  rewrite length_app, length_firstn. cbn [length]. rewrite length_skipn. lia.
Qed.

Lemma replaceAt_nth {A} (i : nat) (x : A) (l : list A) (k : nat) :
  (i < length l)%nat ->
  nth_error (replaceAt i x l) k
  = if Nat.eqb k i then Some x else nth_error l k.
Proof.
  intros H. unfold replaceAt.
  assert (Hf : length (firstn i l) = i) by (rewrite length_firstn; lia).
  destruct (Nat.eqb_spec k i) as [-> | N].
  - rewrite nth_error_app2 by lia. rewrite Hf, Nat.sub_diag. reflexivity.
  - destruct (Nat.lt_ge_cases k i) as [L | G].
    + rewrite nth_error_app1 by lia. now rewrite nth_error_firstn, (proj2 (Nat.ltb_lt k i) L).
    + rewrite nth_error_app2 by lia. rewrite Hf.
      destruct (k - i)%nat as [| d] eqn:D; [lia |]. cbn [nth_error].
      rewrite nth_error_skipn. f_equal. lia.
Qed.

Lemma replaceAt_sum {A} (f : A -> Z) (i : nat) (x b : A) (l : list A) :
  nth_error l i = Some b ->
  sumZ (map f (replaceAt i x l)) = sumZ (map f l) - f b + f x.
Proof.
  intros H. unfold replaceAt.
  assert (Sapp : forall l1 l2, sumZ (l1 ++ l2) = sumZ l1 + sumZ l2).
  { unfold sumZ. induction l1 as [| y l1 IH]; intros l2; simpl.
    - reflexivity.
    - rewrite IH. lia. }
  assert (E : l = firstn i l ++ b :: skipn (S i) l).
  { rewrite <- (firstn_skipn i l) at 1. f_equal.
    clear -H. revert i H. induction l as [| y l IH]; intros [| i] H;
      try discriminate.
    - now injection H as ->.
    - cbn [nth_error] in H. cbn [skipn]. now apply IH. }
  rewrite E at 3. rewrite !map_app, !Sapp. cbn [map]. unfold sumZ. simpl. lia.
Qed.

Lemma countTransaction_spec (hour : nat) (fraud : bool)
    (trends : list HourlyTrend) :
  (hour < length trends)%nat ->
  exists trends',
    countTransaction hour fraud trends = Some trends'
    /\ length trends' = length trends
    /\ map ht_hour trends' = map ht_hour trends
    /\ sumZ (map ht_totalCount trends') = sumZ (map ht_totalCount trends) + 1
    /\ sumZ (map ht_fraudCount trends')
       = sumZ (map ht_fraudCount trends) + (if fraud then 1 else 0)
    /\ (forall k b, nth_error trends k = Some b ->
          exists b', nth_error trends' k = Some b'
            /\ ht_totalCount b'
               = ht_totalCount b + (if Nat.eqb k hour then 1 else 0)
            /\ ht_fraudCount b'
               = ht_fraudCount b
                 + (if Nat.eqb k hour && fraud then 1 else 0)).
Proof.
  intros H. unfold countTransaction.
  destruct (nth_error trends hour) as [bucket |] eqn:E.
  2:{ apply nth_error_None in E. lia. }
  eexists. split; [reflexivity |].
  split; [now apply replaceAt_length |].
  split; [| split; [| split]].
  - apply nth_error_ext. intros k.
    rewrite !nth_error_map, replaceAt_nth by exact H.
    destruct (Nat.eqb_spec k hour) as [-> | N]; [| reflexivity].
    now rewrite E.
  - rewrite (@replaceAt_sum _ ht_totalCount _ _ _ _ E). cbn [ht_totalCount]. lia.
  - rewrite (@replaceAt_sum _ ht_fraudCount _ _ _ _ E). cbn [ht_fraudCount].
    destruct fraud; lia.
  - intros k b Hk. rewrite replaceAt_nth by exact H.
    destruct (Nat.eqb_spec k hour) as [-> | N].
    + rewrite E in Hk. injection Hk as ->.
      eexists. split; [reflexivity |]. cbn [ht_totalCount ht_fraudCount].
      destruct fraud; cbn [andb]; split; lia.
    + exists b. split; [exact Hk |]. cbn [andb]. split; lia.
Qed.

Lemma hourly_fold (getHours : string -> option nat) (txs : list Transaction) :
  validHours getHours txs ->
  forall trends, length trends = 24%nat ->
  exists trends',
    fold_left
      (fun acc tx =>
         match acc with
         | None => None
         | Some trends =>
             match getHours (tx_timestamp tx) with
             | None => None
             | Some hour => countTransaction hour (isFraudCase tx) trends
             end
         end)
      txs (Some trends) = Some trends'
    /\ length trends' = 24%nat
    /\ map ht_hour trends' = map ht_hour trends
    /\ sumZ (map ht_totalCount trends')
       = sumZ (map ht_totalCount trends) + Z.of_nat (length txs)
    /\ sumZ (map ht_fraudCount trends')
       = sumZ (map ht_fraudCount trends)
         + Z.of_nat (length (filter isFraudCase txs))
    /\ (forall k b, nth_error trends k = Some b ->
          exists b', nth_error trends' k = Some b'
            /\ ht_totalCount b'
               = ht_totalCount b
                 + Z.of_nat (length (filter (inHour getHours k) txs))
            /\ ht_fraudCount b'
               = ht_fraudCount b
                 + Z.of_nat (length (filter (fun t => inHour getHours k t
                                                      && isFraudCase t) txs))).
Proof.
  induction txs as [| t txs IH]; intros V trends L.
  - exists trends. cbn. repeat split; try lia.
    intros k b Hk. exists b. repeat split; [exact Hk | lia | lia].
  - cbn [fold_left].
    destruct (V t (or_introl eq_refl)) as (h & Eh & Hh). rewrite Eh.
    destruct (@countTransaction_spec h (isFraudCase t) trends)
      as (t1 & E1 & L1 & M1 & S1 & F1 & N1); [lia |].
    rewrite E1.
    destruct (IH (fun u Hu => V u (or_intror Hu)) t1) as
      (t2 & E2 & L2 & M2 & S2 & F2 & N2); [lia |].
    exists t2. split; [exact E2 |]. split; [exact L2 |].
    split; [congruence |]. split; [| split].
    + rewrite S2, S1. cbn [length]. lia.
    + rewrite F2, F1. cbn [filter]. destruct (isFraudCase t); cbn [length]; lia.
    + intros k b Hk. destruct (N1 k b Hk) as (b1 & Hb1 & T1 & C1).
      destruct (N2 k b1 Hb1) as (b2 & Hb2 & T2 & C2).
      exists b2. split; [exact Hb2 |].
      assert (Ik : inHour getHours k t = Nat.eqb k h)
        by (unfold inHour; rewrite Eh; apply Nat.eqb_sym).
      cbn [filter]. rewrite Ik.
      destruct (Nat.eqb k h), (isFraudCase t); cbn [andb length] in *;
        split; lia.
Qed.

(** X14. For transactions with valid timestamps [calculateHourlyTrend]
    returns 24 buckets, one per hour of the day in order; the bucket of an
    hour counts the transactions of that hour and, among them, the ones of
    critical risk or blocked status; the totals of all buckets add up to the
    number of transactions, and the fraud counts to the number of fraud
    cases that [calculateMetrics] reports. *)
Theorem calculateHourlyTrend_counts :
  forall (getHours : string -> option nat) (txs : list Transaction),
    validHours getHours txs ->
    exists trends,
      calculateHourlyTrend getHours txs = Some trends
      /\ map ht_hour trends = map Z.of_nat (seq 0 24)
      /\ (forall k b, nth_error trends k = Some b ->
            ht_totalCount b
            = Z.of_nat (length (filter (inHour getHours k) txs))
            /\ ht_fraudCount b
               = Z.of_nat (length (filter (fun t => inHour getHours k t
                                                    && isFraudCase t) txs))
            /\ 0 <= ht_fraudCount b <= ht_totalCount b)
      /\ sumZ (map ht_totalCount trends) = Z.of_nat (length txs)
      /\ sumZ (map ht_fraudCount trends)
         = Z.of_nat (length (filter isFraudCase txs))
      /\ (forall history alerts,
            fraud_detected (calculateMetrics txs history alerts)
            = inject_Z (sumZ (map ht_fraudCount trends))).
Proof.
  intros getHours txs V. unfold calculateHourlyTrend.
  destruct (@hourly_fold getHours txs V emptyTrends eq_refl)
    as (trends & E & L & M & St & F & Nb).
  exists trends. split; [exact E |].
  split; [rewrite M; reflexivity |].
  split; [| split; [| split]].
  - intros k b Hk.
    assert (Hlt : (k < 24)%nat).
    { rewrite <- L. apply nth_error_Some. congruence. }
    destruct (nth_error emptyTrends k) as [b0 |] eqn:E0.
    2:{ apply nth_error_None in E0. change (length emptyTrends) with 24%nat in E0.
        lia. }
    assert (Z0 : ht_totalCount b0 = 0 /\ ht_fraudCount b0 = 0).
    { unfold emptyTrends in E0. rewrite nth_error_map in E0.
      destruct (nth_error (seq 0 24) k); [| discriminate].
      injection E0 as <-. split; reflexivity. }
    destruct (Nb k b0 E0) as (b' & Hb' & T & C).
    rewrite Hk in Hb'. injection Hb' as <-.
    destruct Z0 as [Z1 Z2]. rewrite T, C, Z1, Z2.
    repeat split; try lia.
    apply inj_le. apply filter_length_mono.
    intros x _ Hx. now apply andb_true_iff in Hx.
  - rewrite St. reflexivity.
  - rewrite F. reflexivity.
  - intros history alerts. rewrite F.
    change (sumZ (map ht_fraudCount emptyTrends)) with 0. reflexivity.
Qed.

(** Ten transactions of the tenth hour. *)
Lemma calculateHourlyTrend_counts_witness :
  exists trends,
    calculateHourlyTrend tenOClock tenTransactions = Some trends
    /\ sumZ (map ht_totalCount trends) = 10
    /\ sumZ (map ht_fraudCount trends) = 3.
Proof.
  assert (V : validHours tenOClock tenTransactions).
  { intros t _. exists 10%nat. split; [reflexivity | lia]. }
  destruct (@calculateHourlyTrend_counts tenOClock tenTransactions V)
    as (trends & E & _ & _ & St & F & _).
  exists trends. split; [exact E |]. split; [exact St | exact F].
Defined.

(** X15. [calculateHourlyTrend] fails (the increment throws) as soon as one
    transaction carries a timestamp that is not a valid date, whatever the
    other transactions are. *)
Theorem calculateHourlyTrend_invalid_date :
  forall (getHours : string -> option nat) (txs : list Transaction)
         (t : Transaction),
    In t txs -> getHours (tx_timestamp t) = None ->
    calculateHourlyTrend getHours txs = None.
Proof.
  intros getHours txs t Hin Hnone. unfold calculateHourlyTrend.
  generalize (Some emptyTrends).
  induction txs as [| u txs IH]; intros acc; [destruct Hin |].
  cbn [fold_left]. destruct Hin as [-> | Hin].
  - rewrite Hnone.
    assert (Stay : forall l,
               fold_left
                 (fun acc tx =>
                    match acc with
                    | None => None
                    | Some trends =>
                        match getHours (tx_timestamp tx) with
                        | None => None
                        | Some hour =>
                            countTransaction hour (isFraudCase tx) trends
                        end
                    end) l None = None).
    { induction l as [| x l IHl]; [reflexivity | exact IHl]. }
    destruct acc; apply Stay.
  - now apply IH.
Qed.

(** A transaction whose timestamp is no date. *)
Lemma calculateHourlyTrend_invalid_date_witness :
  calculateHourlyTrend (fun _ => None) tenTransactions = None.
Proof.
  apply (@calculateHourlyTrend_invalid_date (fun _ => None) tenTransactions
           (sampleTx "TX1" LOW PENDING)).
  - now left.
  - reflexivity.
Defined.

(* ================================================================== *)
(** ** More on the document store *)
(* ================================================================== *)

Lemma lowerAscii_idem (c : ascii) :
  Js.lowerAscii (Js.lowerAscii c) = Js.lowerAscii c.
Proof.
  destruct c as [[] [] [] [] [] [] [] []]; vm_compute; reflexivity.
Qed.

Lemma toLowerCase_idem (s : string) :
  Js.toLowerCase (Js.toLowerCase s) = Js.toLowerCase s.
Proof.
  induction s as [| c s IH]; cbn [Js.toLowerCase]; [reflexivity |].
  now rewrite lowerAscii_idem, IH.
Qed.

Lemma occursIn_empty (s : string) : occursIn "" s.
Proof. now exists ""%string, s. Qed.

Lemma occursIn_refl (s : string) : occursIn s s.
Proof.
  exists ""%string, ""%string. cbn [append].
  induction s as [| c s IH]; cbn [append]; [reflexivity | now f_equal].
Qed.

Lemma sanctionMatch_iff (entityName : string) (s : SanctionEntity) :
  sanctionMatch entityName s = true <-> namesOverlap entityName s.
Proof.
  unfold sanctionMatch, namesOverlap.
  now rewrite orb_true_iff, !strIncludes_iff.
Qed.


(** X17. The empty name is reported as sanctioned: with a non-empty list,
    [checkSanctionStatus] returns its first entity for the empty query.
    Every listed name is reported, with whatever case its ASCII letters are
    written; on the list of the store the empty query gives SANC_001. *)
Theorem checkSanctionStatus_empty_query :
  forall (s : SanctionEntity) (rest : list SanctionEntity),
    checkSanctionStatusIn (s :: rest) "" = Some s
    /\ (forall e name,
          In e (s :: rest) ->
          Js.toLowerCase name = Js.toLowerCase (se_name e) ->
          exists hit, checkSanctionStatusIn (s :: rest) name = Some hit)
    /\ option_map se_entity_id (checkSanctionStatus "")
       = Some "SANC_001"%string.
Proof.
  intros s rest. split; [| split].
  - unfold checkSanctionStatusIn. cbn [find].
    assert (M : sanctionMatch "" s = true).
    { apply sanctionMatch_iff. left. apply occursIn_empty. }
    now rewrite M.
  - intros e name He Hname.
    destruct (checkSanctionStatusIn (s :: rest) name) as [hit |] eqn:E.
    + now exists hit.
    + exfalso.
      destruct (find_first (sanctionMatch name) (namesOverlap name) (s :: rest)
                           (sanctionMatch_iff name)) as [_ F2].
      apply (proj1 F2 E e He). left. rewrite Hname. apply occursIn_refl.
  - reflexivity.
Qed.

(** X18. Both lookups by name ignore the case of the ASCII letters of the
    query: [checkSanctionStatus] and [getMerchantRisk] return the same for
    a name and for that name in lower case. *)
Theorem name_lookups_ignore_case :
  forall (sanctions : list SanctionEntity) (merchants : list MerchantRisk)
         (name : string),
    checkSanctionStatusIn sanctions (Js.toLowerCase name)
    = checkSanctionStatusIn sanctions name
    /\ getMerchantRiskIn merchants (Js.toLowerCase name)
       = getMerchantRiskIn merchants name.
Proof.
  intros sanctions merchants name.
  unfold checkSanctionStatusIn, getMerchantRiskIn, sanctionMatch.
  now rewrite toLowerCase_idem.
Qed.


(** X20. Every entry of the three tables of the store is found under its
    own key: each sanctioned entity under its name, each merchant under its
    name and each customer policy under its user id. *)
Theorem store_entries_found_by_key :
  Forall (fun e => checkSanctionStatus (se_name e) = Some e) sanctionLists
  /\ Forall (fun m => getMerchantRisk (mr_merchant_name m) = Some m)
            merchantRatings
  /\ Forall (fun p => getCustomerPolicy (cp_user_id p) = Some p)
            customerPolicies.
Proof.
  repeat split; repeat (constructor; [vm_compute; reflexivity |]); constructor.
Qed.

(** X21. A customer without a policy is never compliant: the only result is
    the policy-not-found violation; and a compliant result means that the
    table holds a policy for that user, the first of them, with the amount
    within its daily limit. *)
Theorem compliance_requires_a_policy :
  forall (policies : list CustomerPolicy) (userId : string) (amount : Q)
         (country : string),
    let r := checkPolicyComplianceIn policies userId amount country in
    ((forall p, In p policies -> cp_user_id p <> userId) ->
     r = {| compliant := false; violations := [PolicyNotFound] |})
    /\ (compliant r = true ->
        exists p, firstSuchThat (fun x => cp_user_id x = userId) policies p
                  /\ (amount <= cp_daily_limit p)%Q
                  /\ ~ In country (cp_blocked_countries p)
                  /\ cp_compliance_status p <> "FAILED_KYC"%string).
Proof.
  intros policies userId amount country r. subst r.
  destruct (find_first (fun p => Js.streq (cp_user_id p) userId)
                       (fun x => cp_user_id x = userId) policies) as [F1 F2].
  { intros p. apply String.eqb_eq. }
  unfold checkPolicyComplianceIn, getCustomerPolicyIn.
  destruct (find (fun p => Js.streq (cp_user_id p) userId) policies)
    as [p |] eqn:E.
  - split.
    + intros H. exfalso.
      destruct (firstSuchThat_In (proj1 (F1 p) eq_refl)) as [Hin Hid].
      exact (H p Hin Hid).
    + pose proof (gtb_gt amount (cp_daily_limit p)) as R1.
      pose proof (includes_In (cp_blocked_countries p) country) as R2.
      assert (R5 : Js.streq (cp_compliance_status p) "FAILED_KYC" = true
                   <-> cp_compliance_status p = "FAILED_KYC"%string)
        by apply String.eqb_eq.
      destruct (Js.gtb amount (cp_daily_limit p)) eqn:G;
        destruct (Js.includes (cp_blocked_countries p) country);
        destruct ((0 <? length (cp_allowed_countries p))%nat
                  && negb (Js.includes (cp_allowed_countries p) country));
        destruct (Js.streq (cp_compliance_status p) "FAILED_KYC");
        cbn [Js.push app length Nat.eqb compliant]; intros C;
        try discriminate C.
      exists p. split; [exact (proj1 (F1 p) eq_refl) |].
      split; [| split].
      * destruct (Qlt_le_dec (cp_daily_limit p) amount) as [L | L];
          [apply R1 in L; discriminate | exact L].
      * intros H. apply R2 in H. discriminate.
      * intros H. apply R5 in H. discriminate.
  - split; [reflexivity | cbn [compliant]; discriminate].
Qed.

Lemma slice_from_start {A} (e : Z) (l : list A) :
  Js.slice 0 (Some e) l
  = firstn (Z.to_nat (if e <? 0 then Z.of_nat (length l) + e else e)) l.
Proof.
  unfold Js.slice, Js.relIndex.
  destruct (Z.ltb_spec 0 0) as [H | _]; [lia |].
  replace (Z.to_nat (Z.min 0 (Z.of_nat (length l)))) with 0%nat by lia.
  cbn [skipn]. rewrite (Z.min_l 0) by lia. rewrite Z.sub_0_r.
  destruct (Z.ltb_spec e 0) as [N | P].
  - f_equal. lia.
  - destruct (Z.le_gt_cases e (Z.of_nat (length l))) as [H | H].
    + f_equal. lia.
    + rewrite !firstn_all2; [reflexivity | lia | lia].
Qed.

(** X22. [getAuditLogs] with a limit of at least 0 returns the most recent
    [limit] events, newest first (all of them when there are fewer); with a
    negative limit [-k] it returns all events but the [k] oldest, newest
    first. *)
Theorem getAuditLogs_limit :
  forall (Details : Type) (auditLogs : list (AuditLog Details)) (limit : Z),
    (0 <= limit ->
     getAuditLogs auditLogs limit = firstn (Z.to_nat limit) (rev auditLogs)
     /\ getAuditLogs auditLogs limit
        = rev (skipn (length auditLogs - Z.to_nat limit) auditLogs)
     /\ length (getAuditLogs auditLogs limit)
        = Nat.min (Z.to_nat limit) (length auditLogs))
    /\ (limit < 0 ->
        getAuditLogs auditLogs limit
        = rev (skipn (Z.to_nat (- limit)) auditLogs)).
Proof.
  intros Details auditLogs limit. unfold getAuditLogs.
  rewrite slice_from_start, length_rev.
  destruct (Z.ltb_spec limit 0) as [N | P]; split; intros H; try lia.
  - rewrite firstn_rev. f_equal.
    destruct (Z.le_gt_cases (- limit) (Z.of_nat (length auditLogs))) as [L | G].
    + f_equal. lia.
    + rewrite !skipn_all2; [reflexivity | lia | lia].
  - split; [reflexivity |]. split; [apply firstn_rev |].
    now rewrite length_firstn, length_rev.
Qed.

(** X23. An event logged with [logAuditEvent] is appended to the audit log
    without touching the earlier events, and [getAuditLogs] with a limit of
    at least 1 then returns it first, followed by what it returned before
    for one event less. *)
Theorem logged_event_is_most_recent :
  forall (Details : Type) (clockId clockTimestamp : Z)
         (auditLogs : list (AuditLog Details)) (eventType : AuditEventType)
         (changedBy : string) (details : Details)
         (approvalStatus : ApprovalStatus) (limit : Z),
    1 <= limit ->
    let log := fst (logAuditEvent clockId clockTimestamp auditLogs eventType
                                  changedBy details approvalStatus) in
    let auditLogs' := snd (logAuditEvent clockId clockTimestamp auditLogs
                                         eventType changedBy details
                                         approvalStatus) in
    auditLogs' = auditLogs ++ [log]
    /\ getAuditLogs auditLogs' limit
       = log :: getAuditLogs auditLogs (limit - 1)
    /\ au_event_type log = eventType
    /\ au_changed_by log = changedBy
    /\ au_details log = details
    /\ au_approval_status log = approvalStatus.
Proof.
  intros Details clockId clockTimestamp auditLogs eventType changedBy details
         approvalStatus limit H log auditLogs'.
  subst log auditLogs'. unfold logAuditEvent, Js.push. cbn [fst snd].
  repeat split.
  unfold getAuditLogs. rewrite !slice_from_start.
  destruct (Z.ltb_spec limit 0) as [N | _]; [lia |].
  destruct (Z.ltb_spec (limit - 1) 0) as [N | _]; [lia |].
  rewrite rev_app_distr. cbn [rev app].
  replace (Z.to_nat limit) with (S (Z.to_nat (limit - 1))) by lia.
  reflexivity.
Qed.

(** An approval logged on the sample store, read back with the default
    limit. *)
Lemma logged_event_is_most_recent_witness :
  option_map (@au_changed_by string)
    (hd_error
       (getAuditLogs
          (snd (logAuditEvent 1700000000000 1700000000000 sampleAuditLogs
                              TRANSACTION_APPROVED "analyst-user-1"
                              "Manual override"%string defaultApprovalStatus))
          defaultAuditLimit))
  = Some "analyst-user-1"%string.
Proof.
  pose proof (@logged_event_is_most_recent string 1700000000000 1700000000000
                sampleAuditLogs TRANSACTION_APPROVED "analyst-user-1"
                "Manual override"%string defaultApprovalStatus
                defaultAuditLimit) as H.
  cbv zeta in H. destruct H as (_ & E & _).
  - unfold defaultAuditLimit. lia.
  - rewrite E. reflexivity.
Defined.

(* ================================================================== *)
(** ** More on the application state *)
(* ================================================================== *)

Lemma slice_last_fifty {A} (l : list A) :
  Js.slice (-50) None l = skipn (length l - 50) l.
Proof.
  pose proof (@slice_last_n _ 50 l) as H.
  change (- Z.of_nat 50) with (-50) in H. apply H. lia.
Qed.

Lemma In_skipn_inv {A} (n : nat) (l : list A) (x : A) :
  In x (skipn n l) -> In x l.
Proof.
  intros H. rewrite <- (firstn_skipn n l). apply in_or_app. now right.
Qed.

Lemma In_firstn_inv {A} (n : nat) (l : list A) (x : A) :
  In x (firstn n l) -> In x l.
Proof.
  intros H. rewrite <- (firstn_skipn n l). apply in_or_app. now left.
Qed.

(** The history window after one step. *)
Lemma step_history (st : AppState) (ev : Event) :
  historyRef (step st ev) = historyRef st
  \/ exists newTx responseTime clock,
       ev = EvTick newTx responseTime clock
       /\ tx_riskLevel newTx = LOW
       /\ historyRef (step st ev)
          = skipn (length (historyRef st) + 1 - 50)
                  (historyRef st ++ [tx_amount newTx]).
Proof.
  destruct ev as [newTx rt clk | | | |]; cbn [step]; try (now left).
  unfold pipelineTick. destruct (isPaused st); [now left |].
  cbn [historyRef].
  destruct (RiskLevel_eqb (tx_riskLevel newTx) LOW) eqn:E; [| now left].
  right. exists newTx, rt, clk. split; [reflexivity |].
  split; [now apply RiskLevel_eqb_eq |].
  rewrite slice_last_fifty, length_app. reflexivity.
Qed.

(** X24. The history window of the profile holds between 1 and 50 amounts
    in every state the application reaches, and every amount in it is a
    seed amount or the amount of a low-risk transaction of the pipeline:
    no transaction of medium or critical risk enters the baseline. *)
Theorem history_window_invariant :
  forall (INITIAL_KNOWLEDGE_BASE : list FraudCase) (evs : list Event),
    let st := run (initialState INITIAL_KNOWLEDGE_BASE) evs in
    (1 <= length (historyRef st) <= 50)%nat
    /\ (forall x, In x (historyRef st) ->
                  In x seedHistory \/ In x (lowRiskAmounts evs)).
Proof.
  intros kb evs st. subst st.
  assert (G : forall evs st,
             (1 <= length (historyRef st) <= 50)%nat ->
             (1 <= length (historyRef (run st evs)) <= 50)%nat
             /\ (forall x, In x (historyRef (run st evs)) ->
                           In x (historyRef st) \/ In x (lowRiskAmounts evs))).
  { clear. induction evs as [| ev evs IH]; intros st B.
    - split; [exact B | intros x Hx; now left].
    - cbn [run fold_left]. change (fold_left step evs (step st ev))
        with (run (step st ev) evs).
      destruct (step_history st ev) as [E | (newTx & rt & clk & -> & Low & E)].
      + destruct (IH (step st ev)) as [B' P']; [now rewrite E |].
        split; [exact B' |]. intros x Hx.
        destruct (P' x Hx) as [H | H]; [left; now rewrite <- E |].
        right. unfold lowRiskAmounts. cbn [flat_map]. apply in_or_app. now right.
      + destruct (IH (step st (EvTick newTx rt clk))) as [B' P'].
        { rewrite E, length_skipn, length_app. cbn [length]. lia. }
        split; [exact B' |]. intros x Hx.
        destruct (P' x Hx) as [H | H].
        * rewrite E in H. apply In_skipn_inv in H.
          apply in_app_or in H as [H | [<- | []]]; [now left |].
          right. unfold lowRiskAmounts. cbn [flat_map].
          apply (proj2 (RiskLevel_eqb_eq _ _)) in Low. rewrite Low. now left.
        * right. unfold lowRiskAmounts. cbn [flat_map]. apply in_or_app.
          now right. }
  apply (G evs (initialState kb)). cbn. lia.
Qed.

(** X25. The knowledge base only grows: in every state reached from a
    state, it is the knowledge base of that state followed by one case per
    confirmed transaction, in the order of the confirmations. *)
Theorem knowledge_base_append_only :
  forall (st : AppState) (evs : list Event),
    knowledgeBase (run st evs)
    = knowledgeBase st ++ map newCase (confirmedTransactions evs).
Proof.
  intros st evs. revert st.
  induction evs as [| ev evs IH]; intros st.
  - cbn. now rewrite app_nil_r.
  - cbn [run fold_left]. change (fold_left step evs (step st ev))
      with (run (step st ev) evs).
    rewrite IH. unfold confirmedTransactions. cbn [flat_map].
    rewrite map_app, app_assoc. f_equal.
    destruct ev as [newTx rt clk | | | |]; cbn [step map app];
      rewrite ?app_nil_r; try reflexivity.
    unfold pipelineTick. now destruct (isPaused st).
Qed.

Lemma withStatus_same (t : Transaction) : withStatus t (tx_status t) = t.
Proof. now destruct t. Qed.

Lemma withStatus_twice (t : Transaction) (s s' : TxStatus) :
  withStatus (withStatus t s) s' = withStatus t s'.
Proof. reflexivity. Qed.

(** The transaction list after one step. *)
Lemma step_transactions (st : AppState) (ev : Event) (t : Transaction) :
  In t (transactions (step st ev)) ->
  exists t0, (In t0 (transactions st) \/ In t0 (scoredTransactions [ev]))
             /\ t = withStatus t0 (tx_status t).
Proof.
  destruct ev as [newTx rt clk | newTx | tx notes | id status |];
    cbn [step scoredTransactions flat_map app]; intros H.
  - unfold pipelineTick in H. destruct (isPaused st).
    + exists t. split; [now left | symmetry; apply withStatus_same].
    + cbn [transactions] in H. rewrite (slice_first_n 50) in H.
      apply In_firstn_inv in H. exists t.
      split; [| symmetry; apply withStatus_same].
      destruct H as [<- | H]; [right; now left | now left].
  - exists t. split; [| symmetry; apply withStatus_same].
    destruct H as [<- | H]; [right; now left | now left].
  - exists t. split; [now left | symmetry; apply withStatus_same].
  - cbn [handleUpdateStatus transactions] in H.
    apply in_map_iff in H as (t0 & E & H0). exists t0. split; [now left |].
    destruct (Js.streq (tx_id t0) id); subst t.
    + reflexivity.
    + symmetry. apply withStatus_same.
  - exists t. split; [now left | symmetry; apply withStatus_same].
Qed.

(** X26. Every transaction of the list, in every state reached from a
    state, is a transaction of that state or one the scorer produced for a
    tick or an injected event, with at most its status changed: the risk
    level and every other field stay as scored. *)
Theorem transactions_keep_their_scores :
  forall (st : AppState) (evs : list Event) (t : Transaction),
    In t (transactions (run st evs)) ->
    exists t0,
      (In t0 (transactions st) \/ In t0 (scoredTransactions evs))
      /\ t = withStatus t0 (tx_status t)
      /\ tx_riskLevel t = tx_riskLevel t0
      /\ tx_id t = tx_id t0
      /\ tx_amount t = tx_amount t0.
Proof.
  assert (G : forall evs st t,
             In t (transactions (run st evs)) ->
             exists t0,
               (In t0 (transactions st) \/ In t0 (scoredTransactions evs))
               /\ t = withStatus t0 (tx_status t)).
  { induction evs as [| ev evs IH]; intros st t H.
    - exists t. split; [now left | symmetry; apply withStatus_same].
    - cbn [run fold_left] in H. change (fold_left step evs (step st ev))
        with (run (step st ev) evs) in H.
      destruct (IH _ _ H) as (t1 & [H1 | H1] & E1).
      + destruct (step_transactions st ev t1 H1) as (t0 & H0 & E0).
        exists t0. split.
        * destruct H0 as [H0 | H0]; [now left | right].
          change (ev :: evs) with ([ev] ++ evs).
          unfold scoredTransactions in *. rewrite flat_map_app.
          apply in_or_app. now left.
        * rewrite E1, E0. reflexivity.
      + exists t1. split; [| exact E1]. right.
        change (ev :: evs) with ([ev] ++ evs).
        unfold scoredTransactions in *. rewrite flat_map_app.
        apply in_or_app. now right. }
  intros st evs t H. destruct (G evs st t H) as (t0 & H0 & E).
  exists t0. split; [exact H0 |]. split; [exact E |].
  rewrite E. repeat split.
Qed.

(** The crowded state after one tick. *)
Lemma transactions_keep_their_scores_witness :
  exists t0,
    (In t0 (transactions crowdedState)
     \/ In t0 (scoredTransactions
                 [EvTick (sampleTx "TX_NEW" MEDIUM PENDING) 1 1700000000000]))
    /\ tx_riskLevel t0 = MEDIUM.
Proof.
  destruct (@transactions_keep_their_scores crowdedState
              [EvTick (sampleTx "TX_NEW" MEDIUM PENDING) 1 1700000000000]
              (sampleTx "TX_NEW" MEDIUM PENDING))
    as (t0 & H0 & _ & R & _).
  - vm_compute. now left.
  - exists t0. split; [exact H0 | now rewrite <- R].
Defined.

(** X27. An injected fraud event pauses the stream and selects the injected
    transaction, which the lookup of the selected transaction returns; while
    paused, a firing of the pipeline changes nothing; once resumed, the
    first firing leaves the 50 newest transactions, the injected one among
    them, so the list is back within its cap. *)
Theorem injected_event_pauses_until_resumed :
  forall (st : AppState) (newTx next : Transaction) (responseTime : Q)
         (clock : Z),
    let paused := triggerFraudEvent newTx st in
    let resumed := pipelineTick next responseTime clock (togglePause paused) in
    isPaused paused = true
    /\ selectedTx paused = Some newTx
    /\ pipelineTick next responseTime clock paused = paused
    /\ transactions resumed = firstn 50 (next :: newTx :: transactions st)
    /\ (length (transactions resumed) <= 50)%nat.
Proof.
  intros st newTx next responseTime clock paused resumed.
  subst paused resumed.
  assert (E : transactions
                (pipelineTick next responseTime clock
                   (togglePause (triggerFraudEvent newTx st)))
              = firstn 50 (next :: newTx :: transactions st)).
  { unfold pipelineTick. cbn [togglePause triggerFraudEvent isPaused negb
                              transactions].
    apply (slice_first_n 50). }
  split; [reflexivity |]. split; [| split; [reflexivity | split]].
  - unfold selectedTx. cbn [triggerFraudEvent selectedTxId transactions find].
    unfold Js.streq. now rewrite String.eqb_refl.
  - exact E.
  - rewrite E, length_firstn. lia.
Qed.

(** X28. [handleUpdateStatus] sets the status of every transaction with the
    given id and changes nothing else: the list keeps its length, its ids
    and its risk levels, the transactions with another id are untouched, and
    applying the same update again changes nothing. *)
Theorem handleUpdateStatus_only_status :
  forall (id : string) (status : TxStatus) (st : AppState),
    let st' := handleUpdateStatus id status st in
    length (transactions st') = length (transactions st)
    /\ map tx_id (transactions st') = map tx_id (transactions st)
    /\ map tx_riskLevel (transactions st') = map tx_riskLevel (transactions st)
    /\ (forall t, In t (transactions st') -> tx_id t = id ->
                  tx_status t = status)
    /\ (forall t, In t (transactions st) -> tx_id t <> id ->
                  In t (transactions st'))
    /\ handleUpdateStatus id status st' = st'
    /\ knowledgeBase st' = knowledgeBase st
    /\ historyRef st' = historyRef st.
Proof.
  intros id status st st'. subst st'.
  unfold handleUpdateStatus. cbn [transactions knowledgeBase historyRef
                                   selectedTxId isPaused metricsHistoryRef].
  split; [apply length_map |].
  split; [| split; [| split; [| split; [| split]]]].
  - rewrite map_map. apply map_ext. intros t.
    now destruct (Js.streq (tx_id t) id).
  - rewrite map_map. apply map_ext. intros t.
    now destruct (Js.streq (tx_id t) id).
  - intros t Hin Hid. apply in_map_iff in Hin as (t0 & E & _).
    destruct (Js.streq (tx_id t0) id) eqn:S0; subst t; [reflexivity |].
    unfold Js.streq in S0. apply String.eqb_neq in S0. contradiction.
  - intros t Hin Hid. apply in_map_iff. exists t. split; [| exact Hin].
    destruct (Js.streq (tx_id t) id) eqn:S0; [| reflexivity].
    unfold Js.streq in S0. apply String.eqb_eq in S0. contradiction.
  - f_equal. rewrite map_map. apply map_ext. intros t.
    destruct (Js.streq (tx_id t) id) eqn:S0; cbn [withStatus tx_id];
      rewrite S0; reflexivity.
  - split; reflexivity.
Qed.

(** X29. As long as no fraud event is injected, the transaction list holds
    at most 50 transactions in every state the application reaches. *)
Theorem cap_holds_without_injection :
  forall (INITIAL_KNOWLEDGE_BASE : list FraudCase) (evs : list Event),
    Forall notInjected evs ->
    (length (transactions (run (initialState INITIAL_KNOWLEDGE_BASE) evs))
     <= transactionCap)%nat.
Proof.
  intros kb evs H. apply run_within_cap; [exact H |].
  cbn. unfold transactionCap. lia.
Qed.

(** Sixty firings of the pipeline. *)
Lemma cap_holds_without_injection_witness :
  (length (transactions
             (run (initialState [])
                  (repeat (EvTick (sampleTx "TX_STREAM" LOW PENDING) 1
                                  1700000000000) 60)))
   <= transactionCap)%nat.
Proof.
  apply cap_holds_without_injection.
  apply Forall_forall. intros ev H. apply repeat_spec in H. now subst.
Defined.

(** X30. The snapshot log holds at most 1000 snapshots in every state the
    application reaches, whatever the events are. *)
Theorem snapshot_log_capped_in_every_state :
  forall (INITIAL_KNOWLEDGE_BASE : list FraudCase) (evs : list Event),
    (length (metricsHistoryRef (run (initialState INITIAL_KNOWLEDGE_BASE) evs))
     <= 1000)%nat.
Proof.
  intros kb evs. apply run_snapshot_log_within_cap. cbn. lia.
Qed.
